(** * The numeric input state engine of [useNumberFieldState]

    A shallow embedding of
    [packages/@react-stately/numberfield/src/useNumberFieldState.ts]:
    JavaScript strings are sequences of UTF-16 code units, JavaScript numbers
    are binary64 floats (Rocq's primitive floats), the React state cells and
    refs of the hook are the fields of one record that every operation
    threads explicitly. *)

From Stdlib Require Import Ascii String.
From Stdlib Require Import ZArith NArith QArith Qabs Qround List Bool Lia.
From Stdlib Require Import Floats.PrimFloat Floats.SpecFloat Floats.FloatOps.
From Stdlib Require Import Floats.FloatAxioms.
Import ListNotations.

(** ** JavaScript strings *)

Module JSString.

(** A string value is a finite sequence of 16-bit code units. *)
Abbreviation codeUnit := N (only parsing).
Definition jsstring := list codeUnit.

(** ASCII literals, for writing strings of the Basic Latin block. *)
Definition lit (s : string) : jsstring :=
  map N_of_ascii (list_ascii_of_string s).

Definition unit_eqb (a b : codeUnit) : bool := N.eqb a b.

Fixpoint eqb (s t : jsstring) : bool :=
  match s, t with
  | [], [] => true
  | a :: s', b :: t' => unit_eqb a b && eqb s' t'
  | _, _ => false
  end.

(** [isPrefix p s]: [s] starts with [p]. *)
Fixpoint isPrefix (p s : jsstring) : bool :=
  match p, s with
  | [], _ => true
  | a :: p', b :: s' => unit_eqb a b && isPrefix p' s'
  | _ :: _, [] => false
  end.

Fixpoint indexOfFrom (i : Z) (s searchString : jsstring) : Z :=
  if isPrefix searchString s then i
  else match s with
       | [] => (-1)%Z
       | _ :: s' => indexOfFrom (i + 1) s' searchString
       end.

(** [String.prototype.indexOf(searchString)]: the least position at which
    [searchString] occurs, [-1] when there is none; the empty string
    occurs at position 0. *)
Definition indexOf (s searchString : jsstring) : Z :=
  indexOfFrom 0 s searchString.

(** [String.prototype.substring(start, end)]: both ends are clamped to
    [0 .. length] and swapped when out of order; a missing [end] is the
    length. *)
Definition substring (s : jsstring) (start : Z) (end_ : option Z) : jsstring :=
  let len := Z.of_nat (length s) in
  let intStart := Z.min (Z.max start 0) len in
  let intEnd := match end_ with
                | None => len
                | Some e => Z.min (Z.max e 0) len
                end in
  let from := Z.min intStart intEnd in
  let to := Z.max intStart intEnd in
  firstn (Z.to_nat (to - from)) (skipn (Z.to_nat from) s).

(** [String.prototype.replace(searchValue, '')] with a string
    [searchValue]: only the first occurrence is removed. *)
Definition replace (s searchValue : jsstring) : jsstring :=
  let pos := indexOf s searchValue in
  if (pos <? 0)%Z then s
  else firstn (Z.to_nat pos) s
       ++ skipn (Z.to_nat pos + length searchValue) s.

(** [String.prototype.split(sep)] for a separator of one code unit. *)
Fixpoint split (sep : codeUnit) (s : jsstring) : list jsstring :=
  match s with
  | [] => [[]]
  | c :: s' =>
      if unit_eqb c sep then [] :: split sep s'
      else match split sep s' with
           | [] => [[c]]
           | seg :: segs => (c :: seg) :: segs
           end
  end.

Definition concat (ss : list jsstring) : jsstring := List.concat ss.

(** Number of occurrences of one code unit. *)
Definition count (c : codeUnit) (s : jsstring) : nat :=
  length (filter (unit_eqb c) s).

(** [ToString(undefined)], which is what a string method sees when it is
    handed [undefined] for a string argument. *)
Definition undefinedString : jsstring := lit "undefined".

End JSString.
Import JSString.

(** ** JavaScript numbers *)

Module JSNumber.

Open Scope float_scope.

Definition isNaN (x : float) : bool := is_nan x.

Definition MAX_SAFE_INTEGER : float := 9007199254740991.
Definition MIN_SAFE_INTEGER : float := -9007199254740991.

(** [a === b] and [a !== b] on numbers: IEEE equality, so [NaN] differs
    from itself and the two zeros are equal. *)
Definition strictEq (a b : float) : bool := a =? b.
Definition strictNe (a b : float) : bool := negb (a =? b).

(** [Object.is] on numbers, the comparison React uses for dependencies. *)
Definition sameValue (a b : float) : bool := Leibniz.eqb a b.

(** The float nearest to an integer. *)
Definition ofZ (z : Z) : float := SF2Prim (binary_normalize prec emax z 0 false).

Definition signedZ (s : bool) (m : positive) : Z := cond_Zopp s (Zpos m).

(** [x % y], the truncating remainder, computed exactly on the two
    significands brought to a common exponent. *)
Definition rem (x y : float) : float :=
  match Prim2SF x, Prim2SF y with
  | S754_nan, _ | _, S754_nan => nan
  | S754_infinity _, _ => nan
  | _, S754_zero _ => nan
  | S754_zero _, _ => x
  | S754_finite _ _ _, S754_infinity _ => x
  | S754_finite sx mx ex, S754_finite _ my ey =>
      let e := Z.min ex ey in
      let X := (Zpos mx * 2 ^ (ex - e))%Z in
      let Y := (Zpos my * 2 ^ (ey - e))%Z in
      let R := Z.rem X Y in
      SF2Prim (binary_normalize prec emax (cond_Zopp sx R) e sx)
  end.

(** [Math.round]: the nearest integer, ties towards plus infinity, and a
    negative zero for arguments in [-0.5, -0]. *)
Definition Math_round (x : float) : float :=
  match Prim2SF x with
  | S754_finite s m e =>
      if (0 <=? e)%Z then x
      else
        let r := ((2 * signedZ s m + 2 ^ (- e)) / 2 ^ (1 - e))%Z in
        if (r =? 0)%Z then (if s then neg_zero else zero) else ofZ r
  | _ => x
  end.

(** [Math.pow(10, n)] for a natural exponent: the float nearest to the
    power, which is the power itself up to [10^22]. *)
Definition Math_pow10 (n : nat) : float := ofZ (10 ^ Z.of_nat n).

(** [Math.min] and [Math.max] on two numbers. *)
Definition Math_min (a b : float) : float :=
  if is_nan a || is_nan b then nan
  else if a <? b then a
  else if b <? a then b
  else if get_sign a then a else b.

Definition Math_max (a b : float) : float :=
  if is_nan a || is_nan b then nan
  else if a <? b then b
  else if b <? a then a
  else if get_sign a then b else a.

(** *** [Number.prototype.toString]

    The decimal string of a number is built from the integers [n], [k] and
    [s] of the language definition: [s] has [k] digits, [s * 10^(n-k)]
    reads back as the number, and [k] is as small as possible. The search
    below is carried out on exact rationals. *)

(** The exact value of a finite float. *)
Definition toQ (x : float) : Q :=
  match Prim2SF x with
  | S754_finite s m e =>
      if (0 <=? e)%Z then inject_Z (signedZ s m * 2 ^ e)
      else Qmake (signedZ s m) (Z.to_pos (2 ^ (- e)))
  | _ => 0%Q
  end.

Definition pow10Q (n : Z) : Q :=
  if (0 <=? n)%Z then inject_Z (10 ^ n)
  else Qmake 1 (Z.to_pos (10 ^ (- n))).

Definition Qltb (a b : Q) : bool := negb (Qle_bool b a).

Definition evenMantissa (x : float) : bool :=
  match Prim2SF x with
  | S754_finite _ m _ => Z.even (Zpos m)
  | _ => true
  end.

(** [readsBackAs x q]: the real number [q] rounds to the positive finite
    float [x], that is, it lies between the midpoints that separate [x]
    from its two neighbours (the midpoints themselves when the
    significand of [x] is even). *)
Definition readsBackAs (x : float) (q : Q) : bool :=
  let v := toQ x in
  let below := toQ (next_down x) in
  let lo := ((below + v) / 2)%Q in
  let hi := if is_infinity (next_up x) then (v + (v - below) / 2)%Q
            else ((v + toQ (next_up x)) / 2)%Q in
  if evenMantissa x then Qle_bool lo q && Qle_bool q hi
  else Qltb lo q && Qltb q hi.

(** The decimal exponent [n] of a positive rational:
    [10^(n-1) <= v < 10^n]. Finite floats lie between [10^(-324)] and
    [10^309], which bounds both searches. *)
Fixpoint exponentUp (fuel : nat) (p n : Z) (v : Q) : Z :=
  match fuel with
  | O => n
  | S fuel' =>
      if Qltb v (inject_Z p) then n
      else exponentUp fuel' (10 * p) (n + 1) v
  end.

Fixpoint exponentDown (fuel : nat) (w : Q) (n : Z) : Z :=
  match fuel with
  | O => n
  | S fuel' =>
      if Qle_bool (1 # 10) w then n
      else exponentDown fuel' (Qred (w * 10)) (n - 1)
  end.

Definition decimalExponent (v : Q) : Z :=
  if Qle_bool 1 v then exponentUp 310 1 0 v else exponentDown 330 v 0.

Definition Qdist (a b : Q) : Q := Qabs (a - b).

(** The candidates with [k] digits: the two integers around
    [v / 10^(n-k)]; the upper one may reach [10^k], which is [10^(k-1)]
    one decimal exponent higher. *)
Definition candidates (v : Q) (n : Z) (k : Z) : list (Z * Z) :=
  let sLo := Qfloor (v / pow10Q (n - k)) in
  let sHi := (sLo + 1)%Z in
  [ (sLo, n);
    if (sHi =? 10 ^ k)%Z then ((10 ^ (k - 1))%Z, (n + 1)%Z) else (sHi, n) ].

Definition candidateValue (k : Z) (c : Z * Z) : Q :=
  (inject_Z (fst c) * pow10Q (snd c - k))%Q.

Definition validCandidate (x : float) (k : Z) (c : Z * Z) : bool :=
  (10 ^ (k - 1) <=? fst c)%Z && (fst c <? 10 ^ k)%Z
  && readsBackAs x (candidateValue k c).

(** Among the valid candidates the one closest to the number is taken,
    the even one on a tie. *)
Definition closer (v : Q) (k : Z) (c d : Z * Z) : Z * Z :=
  let dc := Qdist (candidateValue k c) v in
  let dd := Qdist (candidateValue k d) v in
  if Qltb dc dd then c
  else if Qltb dd dc then d
  else if Z.even (fst c) then c else d.

Definition bestCandidate (x : float) (v : Q) (n k : Z) : option (Z * Z) :=
  match filter (validCandidate x k) (candidates v n k) with
  | [] => None
  | [c] => Some c
  | c :: d :: _ => Some (closer v k c d)
  end.

(** Digits [k = 1, 2, ...] are tried in turn; seventeen always suffice. *)
Fixpoint shortestFrom (fuel : nat) (x : float) (v : Q) (n k : Z)
  : option (Z * Z * Z) :=
  match fuel with
  | O => None
  | S fuel' =>
      match bestCandidate x v n k with
      | Some (s, n') => Some (s, k, n')
      | None => shortestFrom fuel' x v n (k + 1)
      end
  end.

(** [(s, k, n)] for a positive finite float. *)
Definition shortest (x : float) : option (Z * Z * Z) :=
  let v := toQ x in
  shortestFrom 17 x v (decimalExponent v) 1.

Definition digitUnit (d : Z) : codeUnit := (48 + Z.to_N d)%N.

(** The decimal digits of a natural number, most significant first;
    [fuel] bounds their number. *)
Fixpoint digitsFrom (fuel : nat) (z : Z) (acc : jsstring) : jsstring :=
  match fuel with
  | O => acc
  | S fuel' =>
      let acc' := digitUnit (z mod 10) :: acc in
      if (z <? 10)%Z then acc' else digitsFrom fuel' (z / 10) acc'
  end.

Definition digits (z : Z) : jsstring :=
  digitsFrom (S (Z.to_nat (Z.log2 z))) z [].

Definition zeros (n : Z) : jsstring := repeat 48%N (Z.to_nat n).

Definition exponentPart (n : Z) : jsstring :=
  let e := (n - 1)%Z in
  101%N :: (if (e <? 0)%Z then 45%N else 43%N) :: digits (Z.abs e).

Definition positiveToString (x : float) : jsstring :=
  match shortest x with
  | None => []
  | Some (s, k, n) =>
      let ds := digits s in
      if (k <=? n)%Z && (n <=? 21)%Z then ds ++ zeros (n - k)
      else if (0 <? n)%Z && (n <=? 21)%Z then
        firstn (Z.to_nat n) ds ++ 46%N :: skipn (Z.to_nat n) ds
      else if (-6 <? n)%Z && (n <=? 0)%Z then
        48%N :: 46%N :: zeros (- n) ++ ds
      else if (k =? 1)%Z then ds ++ exponentPart n
      else firstn 1 ds ++ 46%N :: skipn 1 ds ++ exponentPart n
  end.

(** [Number.prototype.toString()] in radix 10. *)
Definition toString (x : float) : jsstring :=
  match Prim2SF x with
  | S754_nan => lit "NaN"
  | S754_zero _ => lit "0"
  | S754_infinity false => lit "Infinity"
  | S754_infinity true => lit "-Infinity"
  | S754_finite false _ _ => positiveToString x
  | S754_finite true _ _ => 45%N :: positiveToString (- x)
  end.

End JSNumber.
Import JSNumber.

(** ** Character classes of regular expressions

    Both regular expressions of the hook have the shape [[...]] with the
    [g] flag and no [u] flag: one character class, applied code unit by code
    unit. The text between the brackets is assembled from locale data, so
    its reading as [ClassRanges] (with the escapes of the web-compatibility
    grammar) is part of what the hook does. *)

Module RegExp.

Open Scope N_scope.

Inductive setKind := Digit | Space | Word.

Inductive token :=
| TChar (c : codeUnit)
| TSet (negated : bool) (k : setKind)
| TDash.

Inductive classItem :=
| ISingle (c : codeUnit)
| IRange (lo hi : codeUnit)
| ISet (negated : bool) (k : setKind).

Definition between (lo hi c : N) : bool := (lo <=? c) && (c <=? hi).

Definition isOctal (c : N) : bool := between 48 55 c.
Definition isDecimal (c : N) : bool := between 48 57 c.
Definition isLetter (c : N) : bool := between 65 90 c || between 97 122 c.

Definition hexValue (c : N) : option N :=
  if between 48 57 c then Some (c - 48)
  else if between 65 70 c then Some (c - 55)
  else if between 97 102 c then Some (c - 87)
  else None.

Fixpoint hexNumber (acc : N) (ds : list N) : option N :=
  match ds with
  | [] => Some acc
  | d :: ds' =>
      match hexValue d with
      | Some v => hexNumber (16 * acc + v) ds'
      | None => None
      end
  end.

(** [\0] to [\377]: the longest run of up to three octal digits whose
    value fits one byte. Returns the value and the digits consumed. *)
Definition legacyOctal (d : N) (rest : jsstring) : token * nat :=
  let v1 := d - 48 in
  match rest with
  | d2 :: rest2 =>
      if isOctal d2 then
        let v2 := 8 * v1 + (d2 - 48) in
        match rest2 with
        | d3 :: _ =>
            if isOctal d3 && (v1 <=? 3) then (TChar (8 * v2 + (d3 - 48)), 3%nat)
            else (TChar v2, 2%nat)
        | [] => (TChar v2, 2%nat)
        end
      else (TChar v1, 1%nat)
  | [] => (TChar v1, 1%nat)
  end.

(** [classEscape rest]: the atom denoted by a backslash followed by
    [rest], and how many code units of [rest] belong to it. A backslash
    with nothing after it has swallowed the closing bracket: the pattern
    is a syntax error. *)
Definition classEscape (rest : jsstring) : option (token * nat) :=
  match rest with
  | [] => None
  | c :: rest' =>
      Some
        (if c =? 98 then (TChar 8, 1%nat)                 (* \b *)
         else if c =? 100 then (TSet false Digit, 1%nat)  (* \d *)
         else if c =? 68 then (TSet true Digit, 1%nat)    (* \D *)
         else if c =? 115 then (TSet false Space, 1%nat)  (* \s *)
         else if c =? 83 then (TSet true Space, 1%nat)    (* \S *)
         else if c =? 119 then (TSet false Word, 1%nat)   (* \w *)
         else if c =? 87 then (TSet true Word, 1%nat)     (* \W *)
         else if c =? 102 then (TChar 12, 1%nat)          (* \f *)
         else if c =? 110 then (TChar 10, 1%nat)          (* \n *)
         else if c =? 114 then (TChar 13, 1%nat)          (* \r *)
         else if c =? 116 then (TChar 9, 1%nat)           (* \t *)
         else if c =? 118 then (TChar 11, 1%nat)          (* \v *)
         else if c =? 99 then                             (* \cX *)
           match rest' with
           | x :: _ =>
               if isLetter x || isDecimal x || (x =? 95)
               then (TChar (x mod 32), 2%nat)
               else (TChar 92, 0%nat)
           | [] => (TChar 92, 0%nat)
           end
         else if isOctal c then legacyOctal c rest'
         else if c =? 120 then                            (* \xHH *)
           match rest' with
           | h1 :: h2 :: _ =>
               match hexNumber 0 [h1; h2] with
               | Some v => (TChar v, 3%nat)
               | None => (TChar c, 1%nat)
               end
           | _ => (TChar c, 1%nat)
           end
         else if c =? 117 then                            (* \uHHHH *)
           match rest' with
           | h1 :: h2 :: h3 :: h4 :: _ =>
               match hexNumber 0 [h1; h2; h3; h4] with
               | Some v => (TChar v, 5%nat)
               | None => (TChar c, 1%nat)
               end
           | _ => (TChar c, 1%nat)
           end
         else (TChar c, 1%nat))                           (* identity *)
  end.

(** The atoms of the text between the brackets. [skip] counts the code
    units still owed to the escape read last. An unescaped closing
    bracket inside the text would end the class early and leave a longer
    pattern behind: such a text is not given a meaning here. *)
Fixpoint tokenize (skip : nat) (s : jsstring) : option (list token) :=
  match s with
  | [] => Some []
  | c :: rest =>
      match skip with
      | S k => tokenize k rest
      | O =>
          if c =? 93 then None
          else if c =? 45 then option_map (cons TDash) (tokenize 0 rest)
          else if c =? 92 then
            match classEscape rest with
            | None => None
            | Some (t, used) => option_map (cons t) (tokenize used rest)
            end
          else option_map (cons (TChar c)) (tokenize 0 rest)
      end
  end.

Definition itemOf (t : token) : classItem :=
  match t with
  | TChar c => ISingle c
  | TSet n k => ISet n k
  | TDash => ISingle 45
  end.

(** [a-b]: a range of code units, a syntax error when out of order; when
    either end is a class escape the three atoms are taken one by one. *)
Definition rangeOf (a b : token) : option (list classItem) :=
  match itemOf a, itemOf b with
  | ISingle lo, ISingle hi =>
      if lo <=? hi then Some [IRange lo hi] else None
  | ia, ib => Some [ia; ISingle 45; ib]
  end.

Fixpoint classRanges (ts : list token) : option (list classItem) :=
  match ts with
  | [] => Some []
  | a :: rest =>
      match rest with
      | TDash :: b :: rest' =>
          match rangeOf a b, classRanges rest' with
          | Some r, Some items => Some (r ++ items)
          | _, _ => None
          end
      | _ => option_map (cons (itemOf a)) (classRanges rest)
      end
  end.

Definition isWhiteSpace (c : N) : bool :=
  between 9 13 c || (c =? 32) || (c =? 160) || (c =? 5760)
  || between 8192 8202 c || (c =? 8232) || (c =? 8233) || (c =? 8239)
  || (c =? 8287) || (c =? 12288) || (c =? 65279).

Definition inSet (k : setKind) (c : N) : bool :=
  match k with
  | Digit => isDecimal c
  | Space => isWhiteSpace c
  | Word => isLetter c || isDecimal c || (c =? 95)
  end.

Definition itemMatches (c : codeUnit) (i : classItem) : bool :=
  match i with
  | ISingle d => c =? d
  | IRange lo hi => between lo hi c
  | ISet negated k => xorb negated (inSet k c)
  end.

(** A compiled class: its items and whether it is negated. *)
Record charClass := { negated : bool; items : list classItem }.

Definition test (re : charClass) (c : codeUnit) : bool :=
  xorb (negated re) (existsb (itemMatches c) (items re)).

(** [new RegExp('[' + source + ']', 'g')]: [None] when the constructor
    throws or the text between the brackets is outside the fragment read
    here. *)
Definition compile (source : jsstring) : option charClass :=
  let '(neg, body) := match source with
                      | 94 :: body => (true, body)
                      | _ => (false, source)
                      end in
  match tokenize 0 body with
  | None => None
  | Some ts => option_map (Build_charClass neg) (classRanges ts)
  end.

(** [s.replace(re, '')] for such a global one-class expression: every
    code unit the class matches is removed. *)
Definition removeAll (re : charClass) (s : jsstring) : jsstring :=
  filter (fun c => negb (test re c)) s.

End RegExp.

(** ** Locale services

    The number formatter and the number parser are supplied by
    [@react-aria/i18n]; the hook only calls them. *)

Module Intl.

(** The [type] of a part returned by [formatToParts]. *)
Inductive partType :=
| Integer | Fraction | Group | Decimal | MinusSign | PlusSign
| Currency | PercentSign | Literal | NaNPart | InfinityPart | UnitPart
| OtherPart.

Definition partType_eqb (a b : partType) : bool :=
  match a, b with
  | Integer, Integer | Fraction, Fraction | Group, Group
  | Decimal, Decimal | MinusSign, MinusSign | PlusSign, PlusSign
  | Currency, Currency | PercentSign, PercentSign | Literal, Literal
  | NaNPart, NaNPart | InfinityPart, InfinityPart | UnitPart, UnitPart
  | OtherPart, OtherPart => true
  | _, _ => false
  end.

Record part := { type : partType; value : jsstring }.

Inductive currencySignOption := StandardSign | Accounting.
Inductive styleOption := DecimalStyle | PercentStyle | CurrencyStyle | UnitStyle.

Record NumberFormatOptions := {
  currencySign : option currencySignOption;
  style : option styleOption
}.

Class NumberFormatter := {
  format : float -> jsstring;
  formatToParts : float -> list part
}.

Class NumberParser := {
  parse : jsstring -> float
}.

End Intl.
Import Intl.

(** ** [clamp] *)

Set Warnings "-inexact-float".
Open Scope float_scope.

(** Modelled from the spec: [clamp] is imported from [@react-aria/utils],
    which is not among the sources. The value is first forced into
    [[min, max]] and then, when a step is given, snapped to the nearest
    point of the step grid (the values reachable from [min] by repeated
    addition of [step]) that is still within the bounds. *)
Definition clamp (value min max : float) (step : option float) : float :=
  let bounded := Math_min (Math_max value min) max in
  match step with
  | None => bounded
  | Some s =>
      let k := Math_round ((bounded - min) / s) in
      let snapped := min + k * s in
      if max <? snapped then min + (k - 1) * s else snapped
  end.

(** ** Decimal-safe arithmetic *)

Inductive operator := Plus | Minus.

Definition apply (op : operator) (a b : float) : float :=
  match op with
  | Plus => a + b
  | Minus => a - b
  end.

(** [(parts[1] && parts[1].length) || 0] for [parts = x.toString().split('.')]. *)
Definition decimalLength (x : float) : nat :=
  match nth_error (split 46%N (toString x)) 1 with
  | Some fraction => length fraction
  | None => 0%nat
  end.

Definition handleDecimalOperation (op : operator) (value1 value2 : float) : float :=
  let result := apply op value1 value2 in
  (* Check if we have decimals *)
  if strictNe (rem value1 1) 0 || strictNe (rem value2 1) 0 then
    let value1DecimalLength := decimalLength value1 in
    let value2DecimalLength := decimalLength value2 in
    let multiplier := Math_pow10 (Nat.max value1DecimalLength value2DecimalLength) in
    (* Transform the decimals to integers based on the precision *)
    let value1 := Math_round (value1 * multiplier) in
    let value2 := Math_round (value2 * multiplier) in
    (* Perform the operation on integers values *)
    let result := apply op value1 value2 in
    (* Transform the integer result back to decimal *)
    result / multiplier
  else result.

(** ** The hook *)

Inductive numeralSystem := arab | hanidec | latin.

(** The ten digit glyphs of each system, indexed 0 to 9. *)
Definition numerals (system : numeralSystem) : jsstring :=
  match system with
  | arab => [1632; 1633; 1634; 1635; 1636; 1637; 1638; 1639; 1640; 1641]%N
  | hanidec => [12295; 19968; 20108; 19977; 22235;
                20116; 20845; 19971; 20843; 20061]%N
  | latin => lit "0123456789"
  end.

(** The table in the order its keys are enumerated by [for ... in]. *)
Definition numberingSystems : list (numeralSystem * jsstring) :=
  [ (arab, numerals arab); (hanidec, numerals hanidec); (latin, numerals latin) ].

(** [CURRENCY_SIGN_REGEX.test(s)] for [^\(.*\)$]: an opening parenthesis,
    any code units but line terminators, a closing parenthesis. *)
Definition isLineTerminator (c : codeUnit) : bool :=
  (c =? 10)%N || (c =? 13)%N || (c =? 8232)%N || (c =? 8233)%N.

Definition CURRENCY_SIGN_REGEX_test (s : jsstring) : bool :=
  match s with
  | 40%N :: rest =>
      match rev rest with
      | 41%N :: middle => negb (existsb isLineTerminator middle)
      | _ => false
      end
  | _ => false
  end.

Module Props.
Record NumberFieldProps := {
  minValue : option float;
  maxValue : option float;
  step : option float;
  formatOptions : option NumberFormatOptions;
  defaultValue : option float
}.
End Props.

(** [isNaN(x)] for an optional number: [undefined] converts to [NaN]. *)
Definition isNaNOpt (x : option float) : bool :=
  match x with
  | None => true
  | Some v => isNaN v
  end.

Record Symbols := {
  minusSign : jsstring;
  plusSign : jsstring;
  decimal : option jsstring;
  validCharacters : jsstring;
  literals : jsstring
}.

(** The state of one field: the two state cells [numberValue] and
    [inputValue], the cell [currentNumeralSystem], the refs [tempNum] and
    [lastValDispatched], and the calls made so far to the [onChange] prop,
    most recent first. *)
Record State := {
  numberValue : float;
  inputValue : jsstring;
  tempNum : float;
  currentNumeralSystem : numeralSystem;
  lastValDispatched : float;
  onChangeCalls : list float
}.

Definition setInputValue (v : jsstring) (st : State) : State :=
  {| numberValue := numberValue st; inputValue := v; tempNum := tempNum st;
     currentNumeralSystem := currentNumeralSystem st;
     lastValDispatched := lastValDispatched st;
     onChangeCalls := onChangeCalls st |}.

Definition setTempNum (v : float) (st : State) : State :=
  {| numberValue := numberValue st; inputValue := inputValue st; tempNum := v;
     currentNumeralSystem := currentNumeralSystem st;
     lastValDispatched := lastValDispatched st;
     onChangeCalls := onChangeCalls st |}.

Definition setCurrentNumeralSystem (v : numeralSystem) (st : State) : State :=
  {| numberValue := numberValue st; inputValue := inputValue st;
     tempNum := tempNum st; currentNumeralSystem := v;
     lastValDispatched := lastValDispatched st;
     onChangeCalls := onChangeCalls st |}.

Definition storeNumberValue (v : float) (st : State) : State :=
  {| numberValue := v; inputValue := inputValue st; tempNum := tempNum st;
     currentNumeralSystem := currentNumeralSystem st;
     lastValDispatched := lastValDispatched st;
     onChangeCalls := onChangeCalls st |}.

(** [onChange?.(val)] *)
Definition onChange (val : float) (st : State) : State :=
  {| numberValue := numberValue st; inputValue := inputValue st;
     tempNum := tempNum st; currentNumeralSystem := currentNumeralSystem st;
     lastValDispatched := lastValDispatched st;
     onChangeCalls := val :: onChangeCalls st |}.

Definition setLastValDispatched (val : float) (st : State) : State :=
  {| numberValue := numberValue st; inputValue := inputValue st;
     tempNum := tempNum st; currentNumeralSystem := currentNumeralSystem st;
     lastValDispatched := val;
     onChangeCalls := onChangeCalls st |}.

(** Consecutive [NaN]s are not forwarded to [onChange]. *)
Definition smartOnChange (val : float) (st : State) : State :=
  let st := if negb (isNaN val) || negb (isNaN (lastValDispatched st))
            then onChange val st else st in
  setLastValDispatched val st.

(** Modelled from the spec: [useControlledState] of [@react-stately/utils]
    is not among the sources. The field is taken uncontrolled (no [value]
    prop): the setter stores the new number and hands it to the change
    callback whenever it [!==] the stored one, which, as the comment above
    [startingValue] recalls, is always the case for [NaN]. *)
Definition setNumberValue (v : float) (st : State) : State :=
  let st := if strictNe (numberValue st) v then smartOnChange v st else st in
  storeNumberValue v st.

Definition replaceAllButFirstOccurrence (val char : jsstring) : jsstring :=
  let first := indexOf val char in
  let prefix := substring val 0 (Some (first + 1)%Z) in
  let suffix := replace (substring val (first + 1) None) char in
  prefix ++ suffix.

(** A string argument that may be [undefined]. *)
Definition stringArg (s : option jsstring) : jsstring :=
  match s with
  | Some v => v
  | None => undefinedString
  end.

Definition findPart (ty : partType) (parts : list part) : option jsstring :=
  option_map value (find (fun p => partType_eqb (type p) ty) parts).

(** [!s] for an optional string: [undefined] and the empty string. *)
Definition falsy (s : option jsstring) : bool :=
  match s with
  | None | Some [] => true
  | Some _ => false
  end.

Definition backslash : codeUnit := 92%N.

Section Hook.

Context {inputValueFormatter : NumberFormatter} {numberParser : NumberParser}.
Variable props : Props.NumberFieldProps.

Definition minValue : float :=
  match Props.minValue props with Some v => v | None => MIN_SAFE_INTEGER end.
Definition maxValue : float :=
  match Props.maxValue props with Some v => v | None => MAX_SAFE_INTEGER end.
Definition step : option float := Props.step props.
Definition formatOptions : option NumberFormatOptions := Props.formatOptions props.
Definition defaultValue : option float := Props.defaultValue props.

Definition isMaxRange : bool :=
  strictEq minValue MIN_SAFE_INTEGER && strictEq maxValue MAX_SAFE_INTEGER.

Definition symbols : Symbols :=
  let allParts := formatToParts (-1000.1) in
  let posAllParts := formatToParts 1000.1 in
  let minusSign := findPart MinusSign allParts in
  let plusSign := findPart PlusSign posAllParts in
  let minusSign := if (0 <=? minValue) || falsy minusSign then [] else stringArg minusSign in
  let plusSign := if (maxValue <=? 0) || falsy plusSign then [] else stringArg plusSign in
  let decimal := findPart Decimal allParts in
  let validCharacters :=
    fold_left (fun chars p =>
                 match type p with
                 | Fraction | Integer | MinusSign | PlusSign => chars
                 | _ => chars ++ backslash :: value p
                 end) allParts [] in
  let literals :=
    fold_left (fun chars p =>
                 match type p with
                 | Decimal | Fraction | Integer | MinusSign | PlusSign => chars
                 | _ => chars ++ backslash :: value p
                 end) allParts [] in
  {| minusSign := minusSign; plusSign := plusSign; decimal := decimal;
     validCharacters := validCharacters; literals := literals |}.

Definition startingValue : float :=
  match defaultValue with
  | Some d => if isNaN d then nan else d
  | None => nan
  end.

(** The state after the first render and its effect. *)
Definition initialState : State :=
  let numberValue := if isNaNOpt defaultValue then nan else startingValue in
  {| numberValue := numberValue;
     inputValue := if isNaN numberValue then [] else format numberValue;
     tempNum := nan;
     currentNumeralSystem := latin;
     lastValDispatched := startingValue;
     onChangeCalls := [] |}.

(** The effect that follows a render: when [numberValue] is not the one
    of the previous render, the display text is rewritten from it. *)
Definition afterRender (previous st : State) : State :=
  if sameValue (numberValue previous) (numberValue st) then st
  else setInputValue (if isNaN (numberValue st) then []
                      else format (numberValue st)) st.

Definition textValue (st : State) : jsstring :=
  let textValue := format (numberValue st) in
  if JSString.eqb textValue (lit "NaN") then [] else textValue.

Definition stepOr1 : float :=
  match step with
  | Some s => if isNaN s then 1 else s
  | None => 1
  end.

Definition increment (st : State) : State :=
  let prev := numberValue st in
  let prev :=
    if isNaN prev then
      (* if the input is empty, start from the min value when incrementing *)
      if isMaxRange then 0
      else if strictEq minValue MIN_SAFE_INTEGER then maxValue
      else minValue
    else prev in
  let '(prev, st') :=
    if negb (isNaN (tempNum st)) then (tempNum st, setTempNum nan st)
    else (prev, st) in
  let newValue := clamp (handleDecimalOperation Plus prev stepOr1) minValue maxValue step in
  afterRender st (setNumberValue newValue st').

Definition incrementToMax (st : State) : State :=
  afterRender st (setNumberValue (clamp maxValue minValue maxValue step) st).

Definition decrement (st : State) : State :=
  let prev := numberValue st in
  let prev :=
    (* if the input is empty, start from the max value when decrementing *)
    if isNaN prev then
      if isMaxRange then 0
      else if strictEq maxValue MAX_SAFE_INTEGER then minValue
      else maxValue
    else prev in
  let '(prev, st') :=
    if negb (isNaN (tempNum st)) then (tempNum st, setTempNum nan st)
    else (prev, st) in
  let newValue := clamp (handleDecimalOperation Minus prev stepOr1) minValue maxValue step in
  afterRender st (setNumberValue newValue st').

Definition decrementToMin (st : State) : State :=
  afterRender st (setNumberValue (clamp minValue minValue maxValue step) st).

Definition hasNumeral (numerals value : jsstring) : bool :=
  existsb (fun char => existsb (fun numeral => unit_eqb numeral char) numerals) value.

(** The digit glyphs are single code units of the Basic Multilingual
    Plane, so iterating [value] by code points or by code units finds the
    same matches. *)
Definition determineNumeralSystem (value : jsstring) (st : State)
  : numeralSystem * State :=
  match find (fun entry => hasNumeral (snd entry) value) numberingSystems with
  | Some (system, _) => (system, setCurrentNumeralSystem system st)
  | None => (latin, st)
  end.

Definition isAccounting : bool :=
  match formatOptions with
  | Some {| currencySign := Some Accounting |} => true
  | _ => false
  end.

Definition isPercent : bool :=
  match formatOptions with
  | Some {| style := Some PercentStyle |} => true
  | _ => false
  end.

Definition roundValueUsingFormatter (value : float) : float :=
  let parts := formatToParts value in
  let strippedValue :=
    concat (map (fun part =>
                   match type part with
                   | Currency | NaNPart | PercentSign | Group
                   | InfinityPart | Literal | UnitPart => []
                   | _ => Intl.value part
                   end) parts) in
  let result := parse strippedValue in
  let result := if isAccounting && (value <? 0) then -1 * result else result in
  if isPercent then result / 100 else result.

(** The display text for [value]: what the first expression leaves of
    it, with the repeated signs and separators taken out. *)
Definition strippedValue (numeralSystem : numeralSystem) (value : jsstring)
  : option jsstring :=
  match RegExp.compile (94%N :: minusSign symbols ++ plusSign symbols
                          ++ numerals numeralSystem
                          ++ validCharacters symbols) with
  | None => None
  | Some re =>
      let strippedValue := RegExp.removeAll re value in
      let strippedValue := replaceAllButFirstOccurrence strippedValue (minusSign symbols) in
      let strippedValue := replaceAllButFirstOccurrence strippedValue (plusSign symbols) in
      Some (replaceAllButFirstOccurrence strippedValue (stringArg (decimal symbols)))
  end.

Definition parseReady (strippedValue : jsstring) : option jsstring :=
  option_map (fun re => RegExp.removeAll re strippedValue)
             (RegExp.compile (literals symbols)).

(** The number read from the display text. *)
Definition newValueOf (strippedValue parseReady : jsstring) : float :=
  let newValue := parse parseReady in
  let newValue := if isAccounting && CURRENCY_SIGN_REGEX_test strippedValue
                  then -1 * newValue else newValue in
  if isPercent then newValue / 100 else newValue.

(** [None]: one of the two [RegExp] constructors throws. *)
Definition setValue (value : jsstring) (st : State) : option State :=
  let '(numeralSystem, st) := determineNumeralSystem value st in
  match strippedValue numeralSystem value with
  | None => None
  | Some stripped =>
      match parseReady stripped with
      | None => None
      | Some ready =>
          let newValue := newValueOf stripped ready in
          if negb (isNaN newValue) && ((maxValue <? newValue) || (newValue <? minValue))
          then Some st
          else
            let st :=
              if negb (isNaN newValue) && (newValue <=? maxValue) && (minValue <=? newValue)
              then setTempNum (roundValueUsingFormatter newValue) st
              else st in
            Some (setInputValue stripped st)
      end
  end.

Definition commitInputValue (st : State) : State :=
  (* Set to empty state if input value is empty *)
  if (length (inputValue st) =? 0)%nat then
    afterRender st (setInputValue [] (setNumberValue nan (setTempNum nan st)))
  else
    let '(clampedValue, st') :=
      if negb (isNaN (tempNum st))
      then (clamp (tempNum st) minValue maxValue step, setTempNum nan st)
      else (clamp (numberValue st) minValue maxValue step, st) in
    let newValue := if isNaN clampedValue then [] else format clampedValue in
    afterRender st (setInputValue newValue (setNumberValue clampedValue st')).

End Hook.

(** ** Locale symbols that are inert in a character class

    The signs and the texts of the parts are pasted into the character
    class as they come. The properties of the sanitizer below are stated
    for locales whose texts do not act on the class syntax. *)

(** Code units that stand for themselves in a class. *)
Definition inert (c : codeUnit) : bool :=
  negb ((c =? 92)%N || (c =? 93)%N || (c =? 45)%N).

(** Code units that stand for themselves after a backslash: all but the
    letters of the class and control escapes and the octal digits. *)
Definition inertAfterBackslash (c : codeUnit) : bool :=
  negb (existsb (N.eqb c) (lit "bdDsSwWfnrtvcxu01234567")).

(** The text of a part, as it appears after its backslash. *)
Definition plainValue (v : jsstring) : bool :=
  match v with
  | [] => false
  | c :: rest => inertAfterBackslash c && forallb inert rest
  end.

(** A sign: empty or one code unit; the minus sign, first in the class,
    may be the hyphen. *)
Definition plainSign (hyphenAllowed : bool) (s : jsstring) : bool :=
  match s with
  | [] => true
  | [c] => negb (c =? 92)%N && negb (c =? 93)%N
           && (hyphenAllowed || negb (c =? 45)%N)
  | _ => false
  end.

(** A digit glyph of any of the three systems. *)
Definition isNumeral (c : codeUnit) : bool :=
  existsb (fun entry => existsb (N.eqb c) (snd entry)) numberingSystems.

Definition digitFree (s : jsstring) : bool :=
  forallb (fun c => negb (isNumeral c)) s.

Definition inValidCharacters (p : part) : bool :=
  match type p with
  | Fraction | Integer | MinusSign | PlusSign => false
  | _ => true
  end.

Section Plain.

Context {inputValueFormatter : NumberFormatter} {numberParser : NumberParser}.
Variable props : Props.NumberFieldProps.

(** The texts that make up [validCharacters]. *)
Definition allowedValues : list jsstring :=
  map value (filter inValidCharacters (formatToParts (-1000.1))).

Definition allowedCharacters : jsstring := concat allowedValues.

Definition plainSymbols : bool :=
  plainSign true (minusSign (symbols props))
  && plainSign false (plusSign (symbols props))
  && forallb plainValue allowedValues.

(** The signs, the decimal separator and the other texts of the locale
    contain no digit glyph. *)
Definition digitFreeSymbols : bool :=
  digitFree (minusSign (symbols props))
  && digitFree (plusSign (symbols props))
  && digitFree (stringArg (decimal (symbols props)))
  && digitFree allowedCharacters.

(** The code units the first expression of [setValue] lets through. *)
Definition accepted (system : numeralSystem) : jsstring :=
  minusSign (symbols props) ++ plusSign (symbols props)
  ++ numerals system ++ allowedCharacters.

Definition isAccepted (system : numeralSystem) (c : codeUnit) : bool :=
  existsb (N.eqb c) (accepted system).

End Plain.

(** The base value of [increment] and of [decrement] for an empty field. *)
Definition incrementSeed (props : Props.NumberFieldProps) : float :=
  if isMaxRange props then 0
  else if strictEq (minValue props) MIN_SAFE_INTEGER then maxValue props
  else minValue props.

Definition decrementSeed (props : Props.NumberFieldProps) : float :=
  if isMaxRange props then 0
  else if strictEq (maxValue props) MAX_SAFE_INTEGER then minValue props
  else maxValue props.

(** The number [increment] and [decrement] start from: the pending parsed
    value when there is one, else the committed value, else the seed. *)
Definition baseValue (seed : float) (st : State) : float :=
  if negb (isNaN (tempNum st)) then tempNum st
  else if isNaN (numberValue st) then seed
  else numberValue st.

(** ** A sample locale

    A formatter and a parser with which the hook can be run: Latin digits,
    the sign [-], groups of three separated by [,] and the decimal
    separator [.]; the fraction is printed in full. On the two probes of
    [symbols] the parts are those of [Intl.NumberFormat('en-US')]. *)

Module Sample.

Fixpoint groupsFrom (fuel : nat) (reversed : jsstring) : list jsstring :=
  match fuel with
  | O => []
  | S fuel' =>
      match skipn 3 reversed with
      | [] => [rev reversed]
      | more => groupsFrom fuel' more ++ [rev (firstn 3 reversed)]
      end
  end.

(** The integer digits cut into groups of three from the right. *)
Definition groups (ds : jsstring) : list jsstring :=
  groupsFrom (S (length ds)) (rev ds).

Fixpoint integerParts (gs : list jsstring) : list part :=
  match gs with
  | [] => []
  | [g] => [ {| type := Integer; value := g |} ]
  | g :: gs' =>
      {| type := Integer; value := g |}
        :: {| type := Group; value := lit "," |} :: integerParts gs'
  end.

Definition unsignedParts (s : jsstring) : list part :=
  match split 46%N s with
  | [i] => integerParts (groups i)
  | i :: f :: _ =>
      integerParts (groups i)
        ++ [ {| type := Decimal; value := lit "." |};
             {| type := Fraction; value := f |} ]
  | [] => []
  end.

Definition sampleFormatToParts (x : float) : list part :=
  match Prim2SF x with
  | S754_nan => [ {| type := NaNPart; value := lit "NaN" |} ]
  | S754_infinity s =>
      (if s then [ {| type := MinusSign; value := lit "-" |} ] else [])
        ++ [ {| type := InfinityPart; value := [8734%N] |} ]
  | S754_zero s | S754_finite s _ _ =>
      (if s then [ {| type := MinusSign; value := lit "-" |} ] else [])
        ++ unsignedParts (toString (abs x))
  end.

Definition sampleFormat (x : float) : jsstring :=
  concat (map value (sampleFormatToParts x)).

Fixpoint digitsValue (acc : Z) (s : jsstring) : option Z :=
  match s with
  | [] => Some acc
  | c :: s' =>
      if RegExp.isDecimal c
      then digitsValue (10 * acc + Z.of_N (c - 48)) s'
      else None
  end.

Definition parseUnsigned (s : jsstring) : float :=
  match split 46%N s with
  | [i] =>
      match i, digitsValue 0 i with
      | _ :: _, Some z => ofZ z
      | _, _ => nan
      end
  | [i; f] =>
      match i ++ f, digitsValue 0 (i ++ f) with
      | _ :: _, Some z => ofZ z / Math_pow10 (length f)
      | _, _ => nan
      end
  | _ => nan
  end.

(** An optional sign, digits, an optional fraction; [NaN] otherwise. *)
Definition sampleParse (s : jsstring) : float :=
  match s with
  | 45%N :: s' => - parseUnsigned s'
  | 43%N :: s' => parseUnsigned s'
  | _ => parseUnsigned s
  end.

#[global] Instance formatter : NumberFormatter :=
  {| format := sampleFormat; formatToParts := sampleFormatToParts |}.

#[global] Instance parser : NumberParser :=
  {| parse := sampleParse |}.

(** Props with a range and a step and nothing else. *)
Definition props (lo hi : option float) (s : option float) (d : option float)
  : Props.NumberFieldProps :=
  {| Props.minValue := lo; Props.maxValue := hi; Props.step := s;
     Props.formatOptions := None; Props.defaultValue := d |}.

(** The configurations used in the examples. *)
Definition unbounded := props None None None None.
Definition range_0_10 := props (Some 0) (Some 10) (Some 1) None.
Definition range_0_10_at_max := props (Some 0) (Some 10) (Some 1) (Some 10).
Definition range_0_100 := props (Some 0) (Some 100) None None.
Definition tenths := props (Some 0) (Some 20) (Some 0.1) (Some 10).
Definition tiny_steps := props (Some 0) (Some 1) (Some 1e-7) (Some 1e-7).

End Sample.

(** ** Two locales with a currency code and a unit

    The sample locale with the texts that two configurations of
    [Intl.NumberFormat] put around the digits: the Danish currency format
    with the currency shown as its code ([-1.000,10 DKK]: the group [.],
    the decimal [,], a no-break space and [DKK]) and the English unit
    format with the unit written out ([-1,000.1 days]: a space and
    [days]). *)

Module Danish.

Definition localize (p : part) : part :=
  match type p with
  | Group => {| type := Group; value := lit "." |}
  | Decimal => {| type := Decimal; value := lit "," |}
  | _ => p
  end.

Definition suffix : list part :=
  [ {| type := Literal; value := [160%N] |};
    {| type := Currency; value := lit "DKK" |} ].

Definition danishFormatToParts (x : float) : list part :=
  map localize (Sample.sampleFormatToParts x) ++ suffix.

Definition danishFormat (x : float) : jsstring :=
  concat (map value (danishFormatToParts x)).

(** The decimal separator is the comma. *)
Definition danishParse (s : jsstring) : float :=
  Sample.sampleParse (map (fun c => if (c =? 44)%N then 46%N else c) s).

Definition formatter : NumberFormatter :=
  {| format := danishFormat; formatToParts := danishFormatToParts |}.

Definition parser : NumberParser := {| parse := danishParse |}.

End Danish.

Module Days.

Definition suffix : list part :=
  [ {| type := Literal; value := lit " " |};
    {| type := UnitPart; value := lit "days" |} ].

Definition daysFormatToParts (x : float) : list part :=
  Sample.sampleFormatToParts x ++ suffix.

Definition daysFormat (x : float) : jsstring :=
  concat (map value (daysFormatToParts x)).

Definition formatter : NumberFormatter :=
  {| format := daysFormat; formatToParts := daysFormatToParts |}.

End Days.

(** ** Runs of the hook *)

Section Runs.

Context {inputValueFormatter : NumberFormatter} {numberParser : NumberParser}.
Variable props : Props.NumberFieldProps.

(** The states a field can be in: the first render followed by any
    sequence of calls to the six operations. *)
Inductive Reachable : State -> Prop :=
| reach_initial : Reachable (initialState props)
| reach_setValue st value st' :
    Reachable st -> setValue props value st = Some st' -> Reachable st'
| reach_increment st : Reachable st -> Reachable (increment props st)
| reach_decrement st : Reachable st -> Reachable (decrement props st)
| reach_incrementToMax st : Reachable st -> Reachable (incrementToMax props st)
| reach_decrementToMin st : Reachable st -> Reachable (decrementToMin props st)
| reach_commitInputValue st : Reachable st -> Reachable (commitInputValue props st).

End Runs.



(** ** Notions used in the statements *)

(** [Subsequence s t]: [s] is [t] with some code units left out. *)
Inductive Subsequence : jsstring -> jsstring -> Prop :=
| subsequence_nil : Subsequence [] []
| subsequence_keep c s t : Subsequence s t -> Subsequence (c :: s) (c :: t)
| subsequence_drop c s t : Subsequence s t -> Subsequence s (c :: t).

(** Two numbers that [===] or are both [NaN]. *)
Definition sameNumber (a b : float) : bool :=
  (isNaN a && isNaN b) || strictEq a b.

(** The first entry of a call log (the log is kept most recent first). *)
Definition oldestCall (calls : list float) : option float :=
  hd_error (rev calls).

(** What the owner of the field gets to see of a state: the stored number,
    the last value dispatched and the calls to [onChange]. *)
Definition reportView (st : State) : float * float * list float :=
  (numberValue st, lastValDispatched st, onChangeCalls st).

(** What the owner was told last: the latest entry of the log, or the
    starting value when nothing was reported yet. *)
Definition lastReported (start : float) (calls : list float) : float :=
  match calls with
  | [] => start
  | latest :: _ => latest
  end.

(** The floats nearest to [k/10] and to [k/100]. *)
Definition tenth (k : nat) : float := ofZ (Z.of_nat k) / 10.
Definition hundredth (k : nat) : float := ofZ (Z.of_nat k) / 100.

(** One step up from the [k]-th point of a decimal grid lands on the next
    point, and one step down from there lands back. *)
Definition stepsExactly (point : nat -> float) (step : float) (k : nat) : bool :=
  sameValue (handleDecimalOperation Plus (point k) step) (point (S k))
  && sameValue (handleDecimalOperation Minus (point (S k)) step) (point k).

(** The display text that goes with a stored number. *)
Definition canonicalText {inputValueFormatter : NumberFormatter} (v : float)
  : jsstring :=
  if isNaN v then [] else format v.

Definition inLiterals (p : part) : bool :=
  match type p with
  | Decimal | Fraction | Integer | MinusSign | PlusSign => false
  | _ => true
  end.

Definition isDecimalPart (p : part) : bool :=
  match type p with
  | Decimal => true
  | _ => false
  end.

(** The texts that make up [literals], and the texts of the decimal
    separator parts. *)
Definition literalValues {inputValueFormatter : NumberFormatter} : list jsstring :=
  map value (filter inLiterals (formatToParts (-1000.1))).

Definition decimalValues {inputValueFormatter : NumberFormatter} : list jsstring :=
  map value (filter isDecimalPart (formatToParts (-1000.1))).

(** * Properties *)

(** ** The built-ins on known values *)

Example toString_known_values :
  map toString [0.1; 10; 9.9; 0.30000000000000004; -12.5; 123456789012345680000;
                1e21; 0.000001; 1e-7; 1.5e-7; 5e-324; 1.7976931348623157e308]
  = map lit ["0.1"; "10"; "9.9"; "0.30000000000000004"; "-12.5";
             "123456789012345680000"; "1e+21"; "0.000001"; "1e-7"; "1.5e-7";
             "5e-324"; "1.7976931348623157e+308"]%string.
Proof. vm_compute. reflexivity. Qed.

Example Math_round_known_values :
  map Math_round [2.5; -2.5; 0.4; 0.49999999999999994; 3.0000000000000004; 1e-7; -7.6]
  = [3; -2; 0; 0; 3; 0; -8].
Proof. vm_compute. reflexivity. Qed.

Example rem_known_values :
  map (fun x => rem x 1) [5.5; -5.5; 10; 1e-7] = [0.5; -0.5; 0; 1e-7]
  /\ rem 7 2.5 = 2
  /\ isNaN (rem infinity 1) = true.
Proof. repeat split; vm_compute; reflexivity. Qed.

Example handleDecimalOperation_known_values :
  handleDecimalOperation Plus 0.1 0.2 = 0.3
  /\ 0.1 + 0.2 = 0.30000000000000004
  /\ handleDecimalOperation Plus 3 4 = 7
  /\ handleDecimalOperation Minus 1.25 0.5 = 0.75.
Proof. repeat split; vm_compute; reflexivity. Qed.

(** [/[^-0123456789\,\.]/g], [/[\,]/g] and a class with a range and an
    escape. *)
Example removeAll_known_values :
  option_map (fun re => RegExp.removeAll re (lit "-12a,3.4-5x"))
             (RegExp.compile (lit "^-0123456789\,\."))
  = Some (lit "-12,3.4-5")
  /\ option_map (fun re => RegExp.removeAll re (lit "1,234.5"))
                (RegExp.compile (lit "\,"))
     = Some (lit "1234.5")
  /\ option_map (fun re => RegExp.removeAll re (lit "a+-0,/"))
                (RegExp.compile (lit "^+-0"))
     = Some (lit "+-0,/")
  /\ option_map (fun re => RegExp.removeAll re (lit "day 12"))
                (RegExp.compile (lit "^\da\y"))
     = Some (lit "ay12")
  /\ RegExp.compile (lit "^z-a") = None.
Proof. repeat split; vm_compute; reflexivity. Qed.

(** ** The change callback *)

Lemma smartOnChange_calls (val : float) (st : State) :
  onChangeCalls (smartOnChange val st)
  = if isNaN val && isNaN (lastValDispatched st)
    then onChangeCalls st
    else val :: onChangeCalls st.
Proof.
  unfold smartOnChange.
  destruct (isNaN val), (isNaN (lastValDispatched st)); reflexivity.
Qed.

Lemma smartOnChange_last (val : float) (st : State) :
  lastValDispatched (smartOnChange val st) = val.
Proof. reflexivity. Qed.



Section DispatchFacts.

Context {inputValueFormatter : NumberFormatter} {numberParser : NumberParser}.
Variable props : Props.NumberFieldProps.







End DispatchFacts.

(** Two closed floats are told apart by evaluating [Object.is] on them. *)
Ltac float_discriminate :=
  let E := fresh "E" in
  intro E;
  match type of E with
  | _ = ?b => apply (f_equal (fun x => sameValue x b)) in E
  end;
  vm_compute in E; discriminate E.


(** ** Frame lemmas of the state setters *)

Section Frames.

Context {inputValueFormatter : NumberFormatter} {numberParser : NumberParser}.
Variable props : Props.NumberFieldProps.

Lemma afterRender_numberValue (previous st : State) :
  numberValue (afterRender previous st) = numberValue st.
Proof.
  unfold afterRender.
  destruct (sameValue (numberValue previous) (numberValue st)); reflexivity.
Qed.

Lemma afterRender_tempNum (previous st : State) :
  tempNum (afterRender previous st) = tempNum st.
Proof.
  unfold afterRender.
  destruct (sameValue (numberValue previous) (numberValue st)); reflexivity.
Qed.

Lemma setNumberValue_numberValue (v : float) (st : State) :
  numberValue (setNumberValue v st) = v.
Proof. reflexivity. Qed.

Lemma setNumberValue_tempNum (v : float) (st : State) :
  tempNum (setNumberValue v st) = tempNum st.
Proof.
  unfold setNumberValue, smartOnChange.
  destruct (strictNe (numberValue st) v); [|reflexivity].
  destruct (negb (isNaN v) || negb (isNaN (lastValDispatched st))); reflexivity.
Qed.

Lemma setNumberValue_inputValue (v : float) (st : State) :
  inputValue (setNumberValue v st) = inputValue st.
Proof.
  unfold setNumberValue, smartOnChange.
  destruct (strictNe (numberValue st) v); [|reflexivity].
  destruct (negb (isNaN v) || negb (isNaN (lastValDispatched st))); reflexivity.
Qed.

Lemma increment_numberValue (st : State) :
  numberValue (increment props st)
  = clamp (handleDecimalOperation Plus (baseValue (incrementSeed props) st) (stepOr1 props))
          (minValue props) (maxValue props) (step props).
Proof.
  unfold increment, baseValue, incrementSeed.
  destruct (negb (isNaN (tempNum st)));
    rewrite afterRender_numberValue, setNumberValue_numberValue; reflexivity.
Qed.

Lemma decrement_numberValue (st : State) :
  numberValue (decrement props st)
  = clamp (handleDecimalOperation Minus (baseValue (decrementSeed props) st) (stepOr1 props))
          (minValue props) (maxValue props) (step props).
Proof.
  unfold decrement, baseValue, decrementSeed.
  destruct (negb (isNaN (tempNum st)));
    rewrite afterRender_numberValue, setNumberValue_numberValue; reflexivity.
Qed.

Lemma increment_tempNum (st : State) :
  tempNum (increment props st)
  = if isNaN (tempNum st) then tempNum st else nan.
Proof.
  unfold increment.
  destruct (isNaN (tempNum st)); cbn [negb];
    rewrite afterRender_tempNum, setNumberValue_tempNum; reflexivity.
Qed.

Lemma decrement_tempNum (st : State) :
  tempNum (decrement props st)
  = if isNaN (tempNum st) then tempNum st else nan.
Proof.
  unfold decrement.
  destruct (isNaN (tempNum st)); cbn [negb];
    rewrite afterRender_tempNum, setNumberValue_tempNum; reflexivity.
Qed.

Lemma commitInputValue_tempNum (st : State) :
  tempNum (commitInputValue props st)
  = if negb (length (inputValue st) =? 0)%nat && isNaN (tempNum st)
    then tempNum st else nan.
Proof.
  unfold commitInputValue.
  destruct (length (inputValue st) =? 0)%nat; cbn [negb andb].
  - rewrite afterRender_tempNum. cbn [tempNum setInputValue].
    rewrite setNumberValue_tempNum. reflexivity.
  - destruct (isNaN (tempNum st)); cbn [negb];
      rewrite afterRender_tempNum; cbn [tempNum setInputValue];
      rewrite setNumberValue_tempNum; reflexivity.
Qed.

Lemma commitInputValue_numberValue (st : State) :
  numberValue (commitInputValue props st)
  = if (length (inputValue st) =? 0)%nat then nan
    else clamp (if negb (isNaN (tempNum st)) then tempNum st else numberValue st)
               (minValue props) (maxValue props) (step props).
Proof.
  unfold commitInputValue.
  destruct (length (inputValue st) =? 0)%nat.
  - rewrite afterRender_numberValue. reflexivity.
  - destruct (negb (isNaN (tempNum st)));
      rewrite afterRender_numberValue; reflexivity.
Qed.

Lemma cleared_isNaN (t : float) :
  isNaN (if isNaN t then t else nan) = true.
Proof. destruct (isNaN t) eqn:H; [exact H | reflexivity]. Qed.

End Frames.

(** ** The pending parsed value *)

Section Pending.

Context {inputValueFormatter : NumberFormatter} {numberParser : NumberParser}.
Variable props : Props.NumberFieldProps.

(** C10, as amended: [incrementToMax] and [decrementToMin] store the
    clamped maximum (minimum) and leave the pending parsed value as it
    is. A pending value that is set therefore survives them and is the
    base of the next [increment] or [decrement], and of the next
    [commitInputValue] when the display text is not empty then; and
    [increment], [decrement] and [commitInputValue] always end with the
    pending value cleared. *)
Theorem pending_value_survives_jumps (st : State) :
  (numberValue (incrementToMax props st)
     = clamp (maxValue props) (minValue props) (maxValue props) (step props)
   /\ tempNum (incrementToMax props st) = tempNum st)
  /\ (numberValue (decrementToMin props st)
        = clamp (minValue props) (minValue props) (maxValue props) (step props)
      /\ tempNum (decrementToMin props st) = tempNum st)
  /\ (forall jumped,
         jumped = incrementToMax props st \/ jumped = decrementToMin props st ->
         isNaN (tempNum st) = false ->
         numberValue (increment props jumped)
           = clamp (handleDecimalOperation Plus (tempNum st) (stepOr1 props))
                   (minValue props) (maxValue props) (step props)
         /\ numberValue (decrement props jumped)
              = clamp (handleDecimalOperation Minus (tempNum st) (stepOr1 props))
                      (minValue props) (maxValue props) (step props)
         /\ (inputValue jumped <> [] ->
             numberValue (commitInputValue props jumped)
               = clamp (tempNum st) (minValue props) (maxValue props) (step props)))
  /\ (isNaN (tempNum (increment props st)) = true
      /\ isNaN (tempNum (decrement props st)) = true
      /\ isNaN (tempNum (commitInputValue props st)) = true).
Proof.
  assert (Hmax : tempNum (incrementToMax props st) = tempNum st).
  { unfold incrementToMax.
    rewrite afterRender_tempNum. apply setNumberValue_tempNum. }
  assert (Hmin : tempNum (decrementToMin props st) = tempNum st).
  { unfold decrementToMin.
    rewrite afterRender_tempNum. apply setNumberValue_tempNum. }
  split; [|split; [|split]].
  - split; [|exact Hmax].
    unfold incrementToMax. rewrite afterRender_numberValue. reflexivity.
  - split; [|exact Hmin].
    unfold decrementToMin. rewrite afterRender_numberValue. reflexivity.
  - intros jumped Hjumped Hset.
    assert (Hkept : tempNum jumped = tempNum st)
      by (destruct Hjumped; subst jumped; assumption).
    rewrite increment_numberValue, decrement_numberValue,
      commitInputValue_numberValue.
    unfold baseValue. rewrite Hkept, Hset. cbn [negb].
    split; [reflexivity | split; [reflexivity|]].
    intros Hshown. destruct (inputValue jumped); [contradiction | reflexivity].
  - rewrite increment_tempNum, decrement_tempNum, commitInputValue_tempNum.
    split; [apply cleared_isNaN | split; [apply cleared_isNaN|]].
    destruct (length (inputValue st) =? 0)%nat; cbn [negb andb]; [reflexivity|].
    apply cleared_isNaN.
Qed.

End Pending.

(** ** The numeral system detector *)

Lemma determineNumeralSystem_order (value : jsstring) (st : State) :
  determineNumeralSystem value st
  = if hasNumeral (numerals arab) value
    then (arab, setCurrentNumeralSystem arab st)
    else if hasNumeral (numerals hanidec) value
    then (hanidec, setCurrentNumeralSystem hanidec st)
    else if hasNumeral (numerals latin) value
    then (latin, setCurrentNumeralSystem latin st)
    else (latin, st).
Proof.
  unfold determineNumeralSystem, numberingSystems. cbn [find snd].
  destruct (hasNumeral (numerals arab) value); [reflexivity|].
  destruct (hasNumeral (numerals hanidec) value); [reflexivity|].
  destruct (hasNumeral (numerals latin) value); reflexivity.
Qed.

Section Detector.

Context {inputValueFormatter : NumberFormatter} {numberParser : NumberParser}.
Variable props : Props.NumberFieldProps.

Lemma setValue_currentNumeralSystem (value : jsstring) (st st' : State) :
  setValue props value st = Some st' ->
  currentNumeralSystem st'
  = currentNumeralSystem (snd (determineNumeralSystem value st)).
Proof.
  unfold setValue.
  destruct (determineNumeralSystem value st) as [system st1]. cbn [snd].
  destruct (strippedValue props system value) as [stripped|]; [|discriminate].
  destruct (parseReady props stripped) as [ready|]; [|discriminate].
  destruct (negb _ && (_ || _)).
  - intros H. injection H as <-. reflexivity.
  - intros H. injection H as <-.
    destruct (negb _ && _ && _); reflexivity.
Qed.

(** C9: for an input with no digit glyph of any of the three systems the
    detector answers [latin] and returns the state as it was, so the
    stored [currentNumeralSystem] keeps its previous value, also after
    the whole of [setValue]. *)
Theorem determineNumeralSystem_without_digits (value : jsstring) (st : State) :
  (forall system, hasNumeral (numerals system) value = false) ->
  determineNumeralSystem value st = (latin, st)
  /\ (forall st', setValue props value st = Some st' ->
                  currentNumeralSystem st' = currentNumeralSystem st).
Proof.
  intros Hnone.
  assert (Hdet : determineNumeralSystem value st = (latin, st)).
  { rewrite determineNumeralSystem_order.
    rewrite (Hnone arab), (Hnone hanidec), (Hnone latin). reflexivity. }
  split; [exact Hdet|].
  intros st' Hset.
  rewrite (setValue_currentNumeralSystem value st st' Hset), Hdet.
  reflexivity.
Qed.

End Detector.

(** A text of signs, separators and letters, typed while [hanidec] is the
    stored system. *)
Lemma sample_text_without_digits :
  determineNumeralSystem (lit "-.,abc")
    (setCurrentNumeralSystem hanidec
       (initialState Sample.unbounded))
  = (latin, setCurrentNumeralSystem hanidec
              (initialState Sample.unbounded))
  /\ (forall st',
         setValue Sample.unbounded (lit "-.,abc")
           (setCurrentNumeralSystem hanidec
              (initialState Sample.unbounded)) = Some st' ->
         currentNumeralSystem st' = hanidec).
Proof.
  apply (determineNumeralSystem_without_digits
           Sample.unbounded (lit "-.,abc")).
  intros system. destruct system; reflexivity.
Defined.

(** A pending 5 is the base of the [increment] that follows
    [incrementToMax]. *)
Lemma sample_pending_survives_incrementToMax :
  numberValue
    (increment Sample.range_0_10
       (incrementToMax Sample.range_0_10
          (setTempNum 5 (initialState Sample.range_0_10))))
  = clamp (handleDecimalOperation Plus 5 1) 0 10 (Some 1).
Proof.
  destruct (pending_value_survives_jumps
              Sample.range_0_10
              (setTempNum 5 (initialState Sample.range_0_10)))
    as (_ & _ & Hbase & _).
  exact (proj1 (Hbase _ (or_introl eq_refl) eq_refl)).
Defined.

(** ** Text that parses out of range *)

Section OutOfRange.

Context {inputValueFormatter : NumberFormatter} {numberParser : NumberParser}.
Variable props : Props.NumberFieldProps.

Lemma determineNumeralSystem_frame (value : jsstring) (st : State) :
  let st1 := snd (determineNumeralSystem value st) in
  numberValue st1 = numberValue st /\ tempNum st1 = tempNum st
  /\ inputValue st1 = inputValue st /\ onChangeCalls st1 = onChangeCalls st
  /\ lastValDispatched st1 = lastValDispatched st.
Proof.
  unfold determineNumeralSystem.
  destruct (find _ numberingSystems) as [[system ?]|]; cbn; auto.
Qed.

(** C1, as amended: when the number read from the sanitized text is
    below [minValue] or above [maxValue], [setValue] returns at once: the
    numeric value, the pending parsed value and also the display text
    stay as they were (at most [currentNumeralSystem] has been updated by
    the detector). *)
Theorem setValue_out_of_range_changes_nothing
        (value : jsstring) (st : State) (stripped ready : jsstring) :
  strippedValue props (fst (determineNumeralSystem value st)) value = Some stripped ->
  parseReady props stripped = Some ready ->
  isNaN (newValueOf props stripped ready) = false ->
  (maxValue props <? newValueOf props stripped ready)
  || (newValueOf props stripped ready <? minValue props) = true ->
  exists st',
    setValue props value st = Some st'
    /\ numberValue st' = numberValue st
    /\ tempNum st' = tempNum st
    /\ inputValue st' = inputValue st
    /\ onChangeCalls st' = onChangeCalls st.
Proof.
  intros Hstripped Hready Hnumber Hout.
  pose proof (determineNumeralSystem_frame value st) as Hframe.
  unfold setValue.
  destruct (determineNumeralSystem value st) as [system st1].
  cbn [fst] in Hstripped. cbn [snd] in Hframe.
  rewrite Hstripped, Hready, Hnumber, Hout. cbn [negb andb].
  exists st1. split; [reflexivity|].
  destruct Hframe as (Hv & Ht & Hi & Hc & _). auto.
Qed.

End OutOfRange.

(** The text [50] in the range [0, 10]. *)
Lemma sample_out_of_range_returns_early :
  exists st',
    setValue Sample.range_0_10 (lit "50") (initialState Sample.range_0_10) = Some st'
    /\ numberValue st' = numberValue (initialState Sample.range_0_10)
    /\ tempNum st' = tempNum (initialState Sample.range_0_10)
    /\ inputValue st' = inputValue (initialState Sample.range_0_10)
    /\ onChangeCalls st' = onChangeCalls (initialState Sample.range_0_10).
Proof.
  apply (setValue_out_of_range_changes_nothing
           Sample.range_0_10 (lit "50") (initialState Sample.range_0_10)
           (lit "50") (lit "50")); vm_compute; reflexivity.
Defined.

(** C1, as stated, fails: with the range [0, 10] and the text [5] on
    display, the text [50] sanitizes to [50] and parses to 50, above the
    maximum; [setValue] then leaves the display text at [5] instead of
    updating it to the sanitized [50]. *)
Lemma sample_out_of_range_text_is_not_displayed :
  exists shown st',
    setValue Sample.range_0_10 (lit "5") (initialState Sample.range_0_10) = Some shown
    /\ inputValue shown = lit "5"
    /\ strippedValue Sample.range_0_10 latin (lit "50") = Some (lit "50")
    /\ parseReady Sample.range_0_10 (lit "50") = Some (lit "50")
    /\ newValueOf Sample.range_0_10 (lit "50") (lit "50") = 50
    /\ (maxValue Sample.range_0_10 <? 50) = true
    /\ setValue Sample.range_0_10 (lit "50") shown = Some st'
    /\ inputValue st' = lit "5"
    /\ inputValue st' <> lit "50".
Proof.
  eexists. eexists.
  split; [vm_compute; reflexivity|].
  repeat (split; [vm_compute; reflexivity|]).
  vm_compute. discriminate.
Qed.

(** ** Stepping *)

Section Stepping.

Context {inputValueFormatter : NumberFormatter} {numberParser : NumberParser}.
Variable props : Props.NumberFieldProps.

(** One step up inside the range [0, 10] with step 1. *)
Lemma step_up_0_10 (k : Z) :
  (0 <= k <= 10)%Z ->
  isNaN (ofZ k) = false
  /\ clamp (handleDecimalOperation Plus (ofZ k) 1) 0 10 (Some 1)
     = ofZ (Z.min (k + 1) 10).
Proof.
  intros Hk.
  assert (Hcases : (k = 0 \/ k = 1 \/ k = 2 \/ k = 3 \/ k = 4 \/ k = 5
                    \/ k = 6 \/ k = 7 \/ k = 8 \/ k = 9 \/ k = 10)%Z) by lia.
  repeat (destruct Hcases as [-> | Hcases];
          [split; vm_compute; reflexivity|]).
  subst k. split; vm_compute; reflexivity.
Qed.

Hypothesis range_min : Props.minValue props = Some 0.
Hypothesis range_max : Props.maxValue props = Some 10.
Hypothesis range_step : Props.step props = Some 1.

Lemma increment_0_10 (st : State) (k : Z) :
  (0 <= k <= 10)%Z ->
  baseValue (incrementSeed props) st = ofZ k ->
  tempNum st = nan ->
  numberValue (increment props st) = ofZ (Z.min (k + 1) 10)
  /\ tempNum (increment props st) = nan.
Proof.
  intros Hk Hbase Hpending.
  rewrite increment_numberValue, increment_tempNum, Hbase, Hpending.
  unfold stepOr1, step, minValue, maxValue.
  rewrite range_min, range_max, range_step.
  split; [|reflexivity].
  exact (proj2 (step_up_0_10 k Hk)).
Qed.

Lemma committed_base (st : State) (k : Z) (seed : float) :
  (0 <= k <= 10)%Z ->
  numberValue st = ofZ k -> tempNum st = nan ->
  baseValue seed st = ofZ k.
Proof.
  intros Hk Hvalue Hpending. unfold baseValue.
  rewrite Hpending, Hvalue.
  rewrite (proj1 (step_up_0_10 k Hk)). reflexivity.
Qed.

(** C2, as amended: with the range [0, 10] and step 1, starting from an
    empty value with no pending parsed value, the first [increment]
    yields 1 (the minimum plus one step), nine further increments yield
    10, and every increment after that leaves the value at 10: after
    [n >= 1] increments the value is [min n 10]. *)
Theorem increment_from_empty_0_10 (st : State) (n : nat) :
  numberValue st = nan -> tempNum st = nan ->
  numberValue (Nat.iter (S n) (increment props) st)
  = ofZ (Z.min (Z.of_nat (S n)) 10).
Proof.
  intros Hempty Hpending.
  assert (Hgoal : numberValue (Nat.iter (S n) (increment props) st)
                  = ofZ (Z.min (Z.of_nat (S n)) 10)
                  /\ tempNum (Nat.iter (S n) (increment props) st) = nan).
  { induction n as [|n [IHvalue IHpending]].
    - cbn [Nat.iter].
      apply (increment_0_10 st 0); [lia | | exact Hpending].
      unfold baseValue, incrementSeed, isMaxRange, minValue, maxValue.
      rewrite Hpending, Hempty, range_min, range_max. reflexivity.
    - change (Nat.iter (S (S n)) (increment props) st)
        with (increment props (Nat.iter (S n) (increment props) st)).
      set (k := Z.min (Z.of_nat (S n)) 10) in *.
      assert (Hk : (0 <= k <= 10)%Z) by (unfold k; lia).
      replace (Z.min (Z.of_nat (S (S n))) 10) with (Z.min (k + 1) 10)
        by (unfold k; lia).
      apply increment_0_10; [exact Hk | | exact IHpending].
      apply committed_base; assumption. }
  exact (proj1 Hgoal).
Qed.

End Stepping.

(** Twelve increments of the empty field. *)
Lemma sample_twelve_increments :
  numberValue (Nat.iter 12 (increment Sample.range_0_10)
                 (initialState Sample.range_0_10))
  = ofZ (Z.min (Z.of_nat 12) 10).
Proof.
  apply (increment_from_empty_0_10 Sample.range_0_10
           eq_refl eq_refl eq_refl (initialState Sample.range_0_10) 11);
    reflexivity.
Defined.

(** C2, as stated, fails at its first step: with the range [0, 10] and
    step 1 the first [increment] of an empty field adds the step to the
    minimum and yields 1, not 0. *)
Lemma sample_first_increment_is_not_0 :
  numberValue (initialState Sample.range_0_10) = nan
  /\ tempNum (initialState Sample.range_0_10) = nan
  /\ numberValue (increment Sample.range_0_10 (initialState Sample.range_0_10)) = 1
  /\ numberValue (increment Sample.range_0_10 (initialState Sample.range_0_10)) <> 0.
Proof.
  repeat (split; [vm_compute; reflexivity|]).
  float_discriminate.
Qed.

(** The values of the claim's run: 1 after the first increment, 10 after
    ten, still 10 afterwards. *)
Example sample_increment_run :
  map (fun n => numberValue (Nat.iter n (increment Sample.range_0_10)
                               (initialState Sample.range_0_10)))
      [1; 2; 9; 10; 11; 20]%nat
  = [1; 2; 9; 10; 10; 10].
Proof. vm_compute. reflexivity. Qed.

(** ** Decimal steps *)

Section Tenths.

Context {inputValueFormatter : NumberFormatter} {numberParser : NumberParser}.
Variable props : Props.NumberFieldProps.

Hypothesis step_tenth : Props.step props = Some 0.1.

(** C4: with the committed value 10 and the step 0.1, in a range whose
    clamping leaves 9.9 alone, one [decrement] yields 9.9: the scaled
    operands 100 and 1 give the integer 99, and 99 divided by 10 is the
    float that the decimal 99/10 reads as and that prints as [9.9]; it is
    not 9.899999999999999. *)
Theorem decrement_10_by_tenth (st : State) :
  numberValue st = 10 -> tempNum st = nan ->
  clamp 9.9 (minValue props) (maxValue props) (Some 0.1) = 9.9 ->
  numberValue (decrement props st) = 9.9
  /\ decimalLength 10 = 0%nat /\ decimalLength 0.1 = 1%nat
  /\ Math_round (10 * Math_pow10 1) = 100
  /\ Math_round (0.1 * Math_pow10 1) = 1
  /\ handleDecimalOperation Minus 10 0.1 = ofZ 99 / ofZ 10
  /\ ofZ 99 / ofZ 10 = 9.9
  /\ readsBackAs 9.9 (99 # 10) = true
  /\ toString 9.9 = lit "9.9"
  /\ 9.9 <> 9.899999999999999.
Proof.
  intros Hvalue Hpending Hrange.
  assert (Hop : handleDecimalOperation Minus 10 0.1 = 9.9)
    by (vm_compute; reflexivity).
  split; [|repeat (split; [vm_compute; reflexivity|]); float_discriminate].
  rewrite decrement_numberValue. unfold baseValue.
  rewrite Hpending, Hvalue.
  change (isNaN nan) with true. change (isNaN 10) with false.
  cbn [negb]. cbv iota.
  unfold stepOr1, step. rewrite step_tenth.
  change (isNaN 0.1) with false. cbv iota.
  rewrite Hop. exact Hrange.
Qed.

End Tenths.

(** The field created at 10 with the range [0, 20] and the step 0.1. *)
Lemma sample_decrement_by_tenth :
  numberValue (decrement Sample.tenths (initialState Sample.tenths)) = 9.9.
Proof.
  apply (decrement_10_by_tenth Sample.tenths eq_refl (initialState Sample.tenths));
    vm_compute; reflexivity.
Defined.

(** C5, at an input where the code drifts: the step 1e-7 prints as
    [1e-7], which has no [.], so both operands are taken to have no
    decimals, the multiplier is 1 and both are rounded to 0. With the
    range [0, 1], from the committed value 1e-7 (one step above the
    minimum, its successor 2e-7 inside the range), [increment] yields 0
    and the following [decrement] stays at 0 instead of returning to
    1e-7. *)
Lemma sample_tiny_step_drifts :
  numberValue (initialState Sample.tiny_steps) = 1e-7
  /\ tempNum (initialState Sample.tiny_steps) = nan
  /\ toString 1e-7 = lit "1e-7"
  /\ decimalLength 1e-7 = 0%nat
  /\ handleDecimalOperation Plus 1e-7 1e-7 = 0
  /\ numberValue (increment Sample.tiny_steps (initialState Sample.tiny_steps)) = 0
  /\ numberValue (decrement Sample.tiny_steps
                    (increment Sample.tiny_steps (initialState Sample.tiny_steps))) = 0
  /\ numberValue (decrement Sample.tiny_steps
                    (increment Sample.tiny_steps (initialState Sample.tiny_steps)))
     <> numberValue (initialState Sample.tiny_steps).
Proof.
  repeat (split; [vm_compute; reflexivity|]).
  float_discriminate.
Qed.

(** ** Repeated signs *)

(** C3, at an input where the code keeps a repeated sign: of three minus
    signs two survive, because the string form of [replace] removes one
    occurrence only. *)
Lemma sample_three_minus_signs_keep_two :
  replaceAllButFirstOccurrence (lit "---") (lit "-") = lit "--"
  /\ replaceAllButFirstOccurrence (lit "1-2-3-4") (lit "-") = lit "1-23-4"
  /\ minusSign (symbols Sample.unbounded) = lit "-"
  /\ strippedValue Sample.unbounded latin (lit "---") = Some (lit "--")
  /\ (exists st',
         setValue Sample.unbounded (lit "---") (initialState Sample.unbounded) = Some st'
         /\ inputValue st' = lit "--"
         /\ count 45%N (inputValue st') = 2%nat)
  /\ strippedValue Sample.unbounded latin (lit "1..2..3") = Some (lit "1.2..3").
Proof.
  repeat (split; [vm_compute; reflexivity|]).
  split; [|vm_compute; reflexivity].
  eexists. split; [vm_compute; reflexivity|].
  split; vm_compute; reflexivity.
Qed.

(** ** A pending value and an empty display *)

(** C10, as stated, fails for [commitInputValue]: with the field at its
    maximum 10, the text [5] stashes the pending value 5 and the empty
    text then clears the display only; [incrementToMax] keeps both, and the
    next [commitInputValue], finding the display empty, resets the value
    to [NaN] rather than committing the pending 5. *)
Lemma sample_commit_on_empty_display_drops_pending :
  exists typed erased,
    setValue Sample.range_0_10_at_max (lit "5")
      (initialState Sample.range_0_10_at_max) = Some typed
    /\ tempNum typed = 5
    /\ setValue Sample.range_0_10_at_max [] typed = Some erased
    /\ tempNum (incrementToMax Sample.range_0_10_at_max erased) = 5
    /\ clamp 5 (minValue Sample.range_0_10_at_max)
             (maxValue Sample.range_0_10_at_max) (step Sample.range_0_10_at_max) = 5
    /\ numberValue (commitInputValue Sample.range_0_10_at_max
                      (incrementToMax Sample.range_0_10_at_max erased)) = nan
    /\ numberValue (commitInputValue Sample.range_0_10_at_max
                      (incrementToMax Sample.range_0_10_at_max erased))
       <> clamp 5 (minValue Sample.range_0_10_at_max)
                (maxValue Sample.range_0_10_at_max) (step Sample.range_0_10_at_max).
Proof.
  eexists. eexists.
  split; [vm_compute; reflexivity|].
  split; [vm_compute; reflexivity|].
  split; [vm_compute; reflexivity|].
  repeat (split; [vm_compute; reflexivity|]).
  float_discriminate.
Qed.

(** ** The character class of the sanitizer *)

Lemma tokenize_inert (s rest : jsstring) :
  forallb inert s = true ->
  RegExp.tokenize 0 (s ++ rest)
  = option_map (app (map RegExp.TChar s)) (RegExp.tokenize 0 rest).
Proof.
  induction s as [|c s IH]; intros H.
  - cbn. destruct (RegExp.tokenize 0 rest); reflexivity.
  - cbn [forallb] in H. apply andb_prop in H as [Hc Hs].
    unfold inert in Hc. apply negb_true_iff in Hc.
    apply orb_false_elim in Hc as [Hc H45].
    apply orb_false_elim in Hc as [H92 H93].
    cbn [app RegExp.tokenize]. rewrite H93, H45, H92, (IH Hs).
    destruct (RegExp.tokenize 0 rest); reflexivity.
Qed.

Lemma classEscape_inert (c : codeUnit) (rest : jsstring) :
  inertAfterBackslash c = true ->
  RegExp.classEscape (c :: rest) = Some (RegExp.TChar c, 1%nat).
Proof.
  unfold inertAfterBackslash. intros H. apply negb_true_iff in H.
  change (lit "bdDsSwWfnrtvcxu01234567")
    with [98; 100; 68; 115; 83; 119; 87; 102; 110; 114; 116; 118; 99; 120; 117;
          48; 49; 50; 51; 52; 53; 54; 55]%N in H.
  cbn [existsb] in H.
  repeat match type of H with
         | (_ || _) = false => apply orb_false_elim in H as [? H]
         end.
  assert (Hoctal : RegExp.isOctal c = false).
  { unfold RegExp.isOctal, RegExp.between.
    repeat match goal with
           | E : N.eqb c _ = false |- _ => apply N.eqb_neq in E
           end.
    destruct (48 <=? c)%N eqn:Hlo; [|reflexivity].
    destruct (c <=? 55)%N eqn:Hhi; [|reflexivity].
    apply N.leb_le in Hlo, Hhi. exfalso. lia. }
  unfold RegExp.classEscape.
  repeat match goal with
         | E : N.eqb c ?k = false |- _ => rewrite E; clear E
         end.
  rewrite Hoctal. reflexivity.
Qed.

Lemma tokenize_backslash (rest : jsstring) :
  RegExp.tokenize 0 (backslash :: rest)
  = match RegExp.classEscape rest with
    | None => None
    | Some (t, used) => option_map (cons t) (RegExp.tokenize used rest)
    end.
Proof. reflexivity. Qed.

Lemma tokenize_escaped (v rest : jsstring) :
  plainValue v = true ->
  RegExp.tokenize 0 (backslash :: v ++ rest)
  = option_map (app (map RegExp.TChar v)) (RegExp.tokenize 0 rest).
Proof.
  destruct v as [|c r]; [discriminate|].
  cbn [plainValue]. intros H. apply andb_prop in H as [Hc Hr].
  rewrite tokenize_backslash. cbn [app].
  rewrite (classEscape_inert c (r ++ rest) Hc).
  cbn [RegExp.tokenize]. rewrite (tokenize_inert r rest Hr).
  destruct (RegExp.tokenize 0 rest); reflexivity.
Qed.

Lemma tokenize_allowed (vs : list jsstring) :
  forallb plainValue vs = true ->
  RegExp.tokenize 0 (concat (map (cons backslash) vs))
  = Some (map RegExp.TChar (concat vs)).
Proof.
  unfold concat.
  induction vs as [|v vs IH]; intros H; [reflexivity|].
  cbn [forallb] in H. apply andb_prop in H as [Hv Hvs].
  cbn [map List.concat]. cbn [app].
  rewrite (tokenize_escaped v _ Hv), (IH Hvs). cbn [option_map].
  rewrite map_app. reflexivity.
Qed.

Lemma classRanges_chars (l : jsstring) :
  RegExp.classRanges (map RegExp.TChar l) = Some (map RegExp.ISingle l).
Proof.
  induction l as [|c l IH]; [reflexivity|].
  cbn [map RegExp.classRanges].
  destruct l as [|d l'].
  - reflexivity.
  - cbn [map] in *. rewrite IH. reflexivity.
Qed.

Lemma classRanges_hyphen_first (l : jsstring) :
  RegExp.classRanges (RegExp.TDash :: map RegExp.TChar l)
  = Some (RegExp.ISingle 45%N :: map RegExp.ISingle l).
Proof.
  pose proof (classRanges_chars l) as H.
  cbn [RegExp.classRanges].
  destruct l as [|d l'].
  - reflexivity.
  - cbn [map] in *. rewrite H. reflexivity.
Qed.

Lemma existsb_singles (c : codeUnit) (l : jsstring) :
  existsb (RegExp.itemMatches c) (map RegExp.ISingle l) = existsb (N.eqb c) l.
Proof.
  induction l as [|d l IH]; [reflexivity|].
  cbn [map existsb RegExp.itemMatches]. rewrite IH. reflexivity.
Qed.

Lemma numerals_inert (system : numeralSystem) :
  forallb inert (numerals system) = true.
Proof. destruct system; reflexivity. Qed.

Lemma fold_left_backslashed (parts : list part) (acc : jsstring) :
  fold_left (fun chars p =>
               match type p with
               | Fraction | Integer | MinusSign | PlusSign => chars
               | _ => chars ++ backslash :: value p
               end) parts acc
  = acc ++ concat (map (cons backslash)
                     (map value (filter inValidCharacters parts))).
Proof.
  unfold concat. revert acc.
  induction parts as [|p parts IH]; intros acc.
  - cbn. rewrite app_nil_r. reflexivity.
  - cbn [fold_left filter]. rewrite IH. unfold inValidCharacters at 2.
    destruct (type p); cbn [map List.concat];
      rewrite <- ?app_assoc; reflexivity.
Qed.

(** A class made of single code units, in the hands of [removeAll]. *)
Lemma removeAll_singles (l value : jsstring) :
  RegExp.removeAll {| RegExp.negated := true;
                      RegExp.items := map RegExp.ISingle l |} value
  = filter (fun c => existsb (N.eqb c) l) value.
Proof.
  unfold RegExp.removeAll, RegExp.test. cbn [RegExp.negated RegExp.items].
  apply filter_ext. intros c. rewrite existsb_singles.
  destruct (existsb (N.eqb c) l); reflexivity.
Qed.

Section Sanitizer.

Context {inputValueFormatter : NumberFormatter} {numberParser : NumberParser}.
Variable props : Props.NumberFieldProps.

Lemma validCharacters_backslashed :
  validCharacters (symbols props)
  = concat (map (cons backslash) allowedValues).
Proof.
  unfold symbols, allowedValues. cbn [validCharacters].
  rewrite fold_left_backslashed. reflexivity.
Qed.

Lemma signs_tokens (minus plus rest : jsstring) :
  plainSign true minus = true -> plainSign false plus = true ->
  forallb inert rest = true ->
  forall tail,
    RegExp.tokenize 0 tail = Some (map RegExp.TChar (concat allowedValues)) ->
    match RegExp.tokenize 0 (minus ++ plus ++ rest ++ tail) with
    | Some ts =>
        RegExp.classRanges ts
        = Some (map RegExp.ISingle (minus ++ plus ++ rest ++ concat allowedValues))
    | None => False
    end.
Proof.
  intros Hminus Hplus Hrest tail Htail.
  assert (Hinner : RegExp.tokenize 0 (plus ++ rest ++ tail)
                   = Some (map RegExp.TChar (plus ++ rest ++ concat allowedValues))).
  { rewrite app_assoc, tokenize_inert, Htail.
    - cbn [option_map]. rewrite <- map_app, <- app_assoc. reflexivity.
    - rewrite forallb_app, Hrest, andb_true_r.
      destruct plus as [|c [|? ?]]; [reflexivity| |discriminate].
      cbn [plainSign orb] in Hplus. cbn [forallb]. unfold inert.
      apply andb_prop in Hplus as [Hplus H45].
      apply andb_prop in Hplus as [H92 H93].
      apply negb_true_iff in H92, H93, H45.
      rewrite H92, H93, H45. reflexivity. }
  destruct minus as [|c [|? ?]]; [| |discriminate].
  - cbn [app]. rewrite Hinner. apply classRanges_chars.
  - cbn [plainSign orb] in Hminus. rewrite andb_true_r in Hminus.
    apply andb_prop in Hminus as [H92 H93].
    apply negb_true_iff in H92, H93.
    cbn [app RegExp.tokenize]. rewrite H93, H92.
    destruct (c =? 45)%N eqn:H45.
    + apply N.eqb_eq in H45. subst c. rewrite Hinner. cbn [option_map].
      apply classRanges_hyphen_first.
    + rewrite Hinner. cbn [option_map].
      apply (classRanges_chars (c :: plus ++ rest ++ concat allowedValues)).
Qed.

(** For inert locale symbols the first expression of [setValue] is the
    class of the accepted code units, negated. *)
Lemma compile_plain (system : numeralSystem) :
  plainSymbols props = true ->
  RegExp.compile (94%N :: minusSign (symbols props) ++ plusSign (symbols props)
                    ++ numerals system ++ validCharacters (symbols props))
  = Some {| RegExp.negated := true;
            RegExp.items := map RegExp.ISingle (accepted props system) |}.
Proof.
  unfold plainSymbols. intros H.
  apply andb_prop in H as [H Hvalues]. apply andb_prop in H as [Hminus Hplus].
  pose proof (signs_tokens _ _ _ Hminus Hplus (numerals_inert system)
                (validCharacters (symbols props))) as Htokens.
  rewrite validCharacters_backslashed in *.
  specialize (Htokens (tokenize_allowed _ Hvalues)).
  unfold RegExp.compile.
  destruct (RegExp.tokenize 0 _) as [ts|]; [|contradiction].
  rewrite Htokens. reflexivity.
Qed.

End Sanitizer.

(** ** Removing repeated signs *)

Lemma isPrefix_app (p s : jsstring) :
  isPrefix p s = true -> s = p ++ skipn (length p) s.
Proof.
  revert s. induction p as [|a p IH]; intros s H; [reflexivity|].
  destruct s as [|b s]; [discriminate|].
  cbn [isPrefix] in H. apply andb_prop in H as [Hab Hp].
  apply N.eqb_eq in Hab. subst b.
  cbn [length skipn app]. rewrite <- (IH s Hp). reflexivity.
Qed.

Lemma indexOfFrom_found (s searchString : jsstring) (i : Z) :
  let j := indexOfFrom i s searchString in
  j = (-1)%Z
  \/ ((i <= j)%Z /\ (Z.to_nat (j - i) <= length s)%nat
      /\ isPrefix searchString (skipn (Z.to_nat (j - i)) s) = true).
Proof.
  revert i. induction s as [|c s IH]; intros i; cbn [indexOfFrom].
  - destruct (isPrefix searchString []) eqn:Hp; [|left; reflexivity].
    right. rewrite Z.sub_diag. cbn. auto with zarith.
  - destruct (isPrefix searchString (c :: s)) eqn:Hp.
    + right. rewrite Z.sub_diag. cbn [Z.to_nat skipn].
      split; [lia | split; [lia | exact Hp]].
    + destruct (IH (i + 1)%Z) as [Hnone | (Hle & Hlen & Hfound)];
        [left; exact Hnone | right].
      set (j := indexOfFrom (i + 1) s searchString) in *.
      replace (Z.to_nat (j - i)) with (S (Z.to_nat (j - (i + 1)))) by lia.
      cbn [skipn length]. split; [lia | split; [lia | exact Hfound]].
Qed.

(** [replace] returns its argument or takes one occurrence out of it. *)
Lemma replace_occurrence (s searchValue : jsstring) :
  replace s searchValue = s
  \/ exists a b, s = a ++ searchValue ++ b /\ replace s searchValue = a ++ b.
Proof.
  unfold replace, indexOf.
  destruct (indexOfFrom_found s searchValue 0) as [Hnone | (Hle & Hlen & Hfound)].
  - rewrite Hnone. left. reflexivity.
  - set (j := indexOfFrom 0 s searchValue) in *.
    rewrite Z.sub_0_r in *.
    destruct (j <? 0)%Z eqn:Hneg; [left; reflexivity | right].
    exists (firstn (Z.to_nat j) s), (skipn (Z.to_nat j + length searchValue) s).
    split; [|reflexivity].
    rewrite Nat.add_comm, <- skipn_skipn, <- (isPrefix_app _ _ Hfound).
    symmetry. apply firstn_skipn.
Qed.

Lemma indexOf_lower_bound (s searchString : jsstring) :
  (-1 <= indexOf s searchString)%Z.
Proof.
  unfold indexOf.
  destruct (indexOfFrom_found s searchString 0) as [-> | (Hle & _)]; lia.
Qed.

Lemma substring_prefix (s : jsstring) (e : Z) :
  (0 <= e)%Z -> substring s 0 (Some e) = firstn (Z.to_nat e) s.
Proof.
  intros He. unfold substring.
  set (len := Z.of_nat (length s)).
  assert (Hlen : (0 <= len)%Z) by (unfold len; lia).
  replace (Z.min (Z.min (Z.max 0 0) len) (Z.min (Z.max e 0) len)) with 0%Z by lia.
  replace (Z.max (Z.min (Z.max 0 0) len) (Z.min (Z.max e 0) len))
    with (Z.min e len) by lia.
  rewrite Z.sub_0_r. cbn [Z.to_nat skipn].
  destruct (Z.le_gt_cases e len) as [Hin | Hout].
  - rewrite Z.min_l by lia. reflexivity.
  - rewrite Z.min_r by lia. unfold len. rewrite Nat2Z.id.
    rewrite firstn_all, firstn_all2 by lia. reflexivity.
Qed.

Lemma substring_suffix (s : jsstring) (e : Z) :
  (0 <= e)%Z -> substring s e None = skipn (Z.to_nat e) s.
Proof.
  intros He. unfold substring.
  set (len := Z.of_nat (length s)).
  assert (Hlen : (0 <= len)%Z) by (unfold len; lia).
  replace (Z.min (Z.min (Z.max e 0) len) len) with (Z.min e len) by lia.
  replace (Z.max (Z.min (Z.max e 0) len) len) with len by lia.
  destruct (Z.le_gt_cases e len) as [Hin | Hout].
  - rewrite Z.min_l by lia. apply firstn_all2.
    rewrite length_skipn. unfold len. lia.
  - rewrite Z.min_r by lia. unfold len. rewrite Nat2Z.id, Z.sub_diag.
    rewrite skipn_all, (skipn_all2 s) by lia. reflexivity.
Qed.

(** [replaceAllButFirstOccurrence] returns its argument or takes one
    occurrence of [char] out of it. *)
Lemma replaceAllButFirstOccurrence_occurrence (val char : jsstring) :
  replaceAllButFirstOccurrence val char = val
  \/ exists a b, val = a ++ char ++ b
                 /\ replaceAllButFirstOccurrence val char = a ++ b.
Proof.
  unfold replaceAllButFirstOccurrence.
  pose proof (indexOf_lower_bound val char) as Hfirst.
  set (n := (indexOf val char + 1)%Z) in *.
  rewrite substring_prefix, substring_suffix by lia.
  destruct (replace_occurrence (skipn (Z.to_nat n) val) char)
    as [Hsame | (a & b & Hsplit & Hreplaced)].
  - left. rewrite Hsame. apply firstn_skipn.
  - right. exists (firstn (Z.to_nat n) val ++ a), b.
    rewrite Hreplaced, <- !app_assoc. split; [|reflexivity].
    rewrite <- Hsplit. symmetry. apply firstn_skipn.
Qed.

Lemma replaceAllButFirstOccurrence_incl (val char : jsstring) (c : codeUnit) :
  In c (replaceAllButFirstOccurrence val char) -> In c val.
Proof.
  destruct (replaceAllButFirstOccurrence_occurrence val char)
    as [-> | (a & b & -> & ->)]; [auto|].
  rewrite !in_app_iff. tauto.
Qed.

Lemma replaceAllButFirstOccurrence_filter
      (keep : codeUnit -> bool) (val char : jsstring) :
  filter keep char = [] ->
  filter keep (replaceAllButFirstOccurrence val char) = filter keep val.
Proof.
  intros Hchar.
  destruct (replaceAllButFirstOccurrence_occurrence val char)
    as [-> | (a & b & -> & ->)]; [reflexivity|].
  rewrite !filter_app, Hchar. reflexivity.
Qed.

(** ** What the sanitizer keeps *)

Lemma filter_filter_implied (f g : codeUnit -> bool) (l : jsstring) :
  (forall c, f c = true -> g c = true) ->
  filter f (filter g l) = filter f l.
Proof.
  intros Himp. induction l as [|c l IH]; [reflexivity|].
  cbn [filter]. destruct (g c) eqn:Hg.
  - cbn [filter]. rewrite IH. reflexivity.
  - rewrite IH. destruct (f c) eqn:Hf; [|reflexivity].
    rewrite (Himp c Hf) in Hg. discriminate.
Qed.

Lemma digitFree_filter (system : numeralSystem) (s : jsstring) :
  digitFree s = true ->
  filter (fun c => existsb (N.eqb c) (numerals system)) s = [].
Proof.
  unfold digitFree. induction s as [|c s IH]; [reflexivity|].
  cbn [forallb filter]. intros H. apply andb_prop in H as [Hc Hs].
  apply negb_true_iff in Hc. unfold isNumeral, numberingSystems in Hc.
  cbn [existsb snd] in Hc.
  apply orb_false_elim in Hc as [Harab Hc].
  apply orb_false_elim in Hc as [Hhan Hc].
  apply orb_false_elim in Hc as [Hlatin _].
  destruct system; rewrite ?Harab, ?Hhan, ?Hlatin; exact (IH Hs).
Qed.

Lemma digitFree_not_numeral (system : numeralSystem) (s : jsstring) (c : codeUnit) :
  digitFree s = true -> In c (numerals system) -> existsb (N.eqb c) s = false.
Proof.
  intros Hfree Hdigit.
  pose proof (digitFree_filter system s Hfree) as Hnone.
  destruct (existsb (N.eqb c) s) eqn:Hin; [|reflexivity].
  apply existsb_exists in Hin as (d & Hd & Hcd).
  apply N.eqb_eq in Hcd. subst d.
  assert (Hkept : In c (filter (fun c => existsb (N.eqb c) (numerals system)) s)).
  { apply filter_In. split; [exact Hd|].
    apply existsb_exists. exists c. split; [exact Hdigit | apply N.eqb_refl]. }
  rewrite Hnone in Hkept. contradiction.
Qed.

Lemma other_numerals_not_hanidec (c : codeUnit) :
  In c (numerals arab ++ numerals latin) ->
  existsb (N.eqb c) (numerals hanidec) = false.
Proof.
  intros H. cbn in H.
  repeat (destruct H as [<- | H]; [reflexivity|]). contradiction.
Qed.

Lemma hyphen_not_numeral (system : numeralSystem) :
  existsb (N.eqb 45%N) (numerals system) = false.
Proof. destruct system; reflexivity. Qed.

Section Kept.

Context {inputValueFormatter : NumberFormatter} {numberParser : NumberParser}.
Variable props : Props.NumberFieldProps.

(** For inert locale symbols, the display text is what is left of the
    accepted code units of the input after the three passes that take
    out repeated signs. *)
Lemma strippedValue_plain (system : numeralSystem) (value : jsstring) :
  plainSymbols props = true ->
  strippedValue props system value
  = Some (replaceAllButFirstOccurrence
            (replaceAllButFirstOccurrence
               (replaceAllButFirstOccurrence
                  (filter (isAccepted props system) value)
                  (minusSign (symbols props)))
               (plusSign (symbols props)))
            (stringArg (decimal (symbols props)))).
Proof.
  intros Hplain. unfold strippedValue.
  rewrite (compile_plain props system Hplain), removeAll_singles.
  reflexivity.
Qed.

Lemma strippedValue_accepted (system : numeralSystem) (value shown : jsstring) :
  plainSymbols props = true ->
  strippedValue props system value = Some shown ->
  forall c, In c shown -> In c value /\ isAccepted props system c = true.
Proof.
  intros Hplain Hshown c Hc.
  rewrite (strippedValue_plain system value Hplain) in Hshown.
  injection Hshown as <-.
  do 3 apply replaceAllButFirstOccurrence_incl in Hc.
  apply filter_In in Hc. exact Hc.
Qed.

Lemma strippedValue_keeps_numerals (system : numeralSystem) (value shown : jsstring) :
  plainSymbols props = true -> digitFreeSymbols props = true ->
  strippedValue props system value = Some shown ->
  filter (fun c => existsb (N.eqb c) (numerals system)) shown
  = filter (fun c => existsb (N.eqb c) (numerals system)) value.
Proof.
  intros Hplain Hfree Hshown.
  rewrite (strippedValue_plain system value Hplain) in Hshown.
  injection Hshown as <-.
  unfold digitFreeSymbols in Hfree.
  apply andb_prop in Hfree as [Hfree _].
  apply andb_prop in Hfree as [Hfree Hdecimal].
  apply andb_prop in Hfree as [Hminus Hplus].
  rewrite !replaceAllButFirstOccurrence_filter
    by (apply digitFree_filter; assumption).
  apply filter_filter_implied. intros c Hc. cbv beta in Hc.
  unfold isAccepted, accepted. rewrite !existsb_app, Hc.
  rewrite !orb_true_r. reflexivity.
Qed.

Lemma setValue_inputValue (value : jsstring) (st st' : State) :
  setValue props value st = Some st' ->
  inputValue st' = inputValue st
  \/ strippedValue props (fst (determineNumeralSystem value st)) value
     = Some (inputValue st').
Proof.
  unfold setValue. intros Hset.
  pose proof (determineNumeralSystem_frame value st) as Hframe.
  destruct (determineNumeralSystem value st) as [system st1].
  cbn [fst snd] in *. destruct Hframe as (_ & _ & Hinput & _).
  destruct (strippedValue props system value) as [stripped|]; [|discriminate].
  destruct (parseReady props stripped) as [ready|]; [|discriminate].
  destruct (negb _ && (_ || _)).
  - injection Hset as <-. left. exact Hinput.
  - injection Hset as <-. right. reflexivity.
Qed.

(** The detector tries [arab], [hanidec] and [latin] in this order and
    answers the first system one of whose ten digit glyphs occurs in the
    input, storing it in [currentNumeralSystem]. So an input with a
    Han-decimal digit and no Arabic-Indic digit selects [hanidec]; and for
    a locale whose symbols are inert in the character class and contain no
    digit glyph, the sanitizer then keeps every Han-decimal digit of the
    input, keeps nothing but Han-decimal digits, the resolved signs and the
    locale's own characters, and removes every Arabic-Indic and Latin
    digit. *)
Theorem han_digits_select_hanidec (value : jsstring) (st : State) :
  determineNumeralSystem value st
  = (if hasNumeral (numerals arab) value
     then (arab, setCurrentNumeralSystem arab st)
     else if hasNumeral (numerals hanidec) value
     then (hanidec, setCurrentNumeralSystem hanidec st)
     else if hasNumeral (numerals latin) value
     then (latin, setCurrentNumeralSystem latin st)
     else (latin, st))
  /\ (hasNumeral (numerals hanidec) value = true ->
      hasNumeral (numerals arab) value = false ->
      determineNumeralSystem value st
      = (hanidec, setCurrentNumeralSystem hanidec st)
      /\ (forall st', setValue props value st = Some st' ->
                      currentNumeralSystem st' = hanidec)
      /\ (plainSymbols props = true -> digitFreeSymbols props = true ->
          exists shown,
            strippedValue props hanidec value = Some shown
            /\ (forall c, In c shown ->
                          In c value /\ isAccepted props hanidec c = true)
            /\ filter (fun c => existsb (N.eqb c) (numerals hanidec)) shown
               = filter (fun c => existsb (N.eqb c) (numerals hanidec)) value
            /\ (forall c, In c (numerals arab ++ numerals latin) ->
                          ~ In c shown))).
Proof.
  split; [apply determineNumeralSystem_order|].
  intros Hhan Harab.
  assert (Hdet : determineNumeralSystem value st
                 = (hanidec, setCurrentNumeralSystem hanidec st))
    by (rewrite determineNumeralSystem_order, Harab, Hhan; reflexivity).
  split; [exact Hdet | split].
  - intros st' Hset.
    rewrite (setValue_currentNumeralSystem props value st st' Hset), Hdet.
    reflexivity.
  - intros Hplain Hfree.
    eexists. split; [apply (strippedValue_plain hanidec value Hplain)|].
    set (shown := replaceAllButFirstOccurrence _ _).
    assert (Hshown : strippedValue props hanidec value = Some shown)
      by apply (strippedValue_plain hanidec value Hplain).
    split; [exact (strippedValue_accepted hanidec value shown Hplain Hshown)|].
    split; [exact (strippedValue_keeps_numerals hanidec value shown
                     Hplain Hfree Hshown)|].
    intros c Hother Hin.
    destruct (strippedValue_accepted hanidec value shown Hplain Hshown c Hin)
      as [_ Hacc].
    unfold isAccepted, accepted in Hacc. rewrite !existsb_app in Hacc.
    unfold digitFreeSymbols in Hfree.
    apply andb_prop in Hfree as [Hfree Hallowed].
    apply andb_prop in Hfree as [Hfree _].
    apply andb_prop in Hfree as [Hminus Hplus].
    assert (Hdigit : exists system, In c (numerals system)).
    { apply in_app_or in Hother as [H | H]; [exists arab | exists latin]; exact H. }
    destruct Hdigit as [system Hdigit].
    rewrite (digitFree_not_numeral system _ c Hminus Hdigit) in Hacc.
    rewrite (digitFree_not_numeral system _ c Hplus Hdigit) in Hacc.
    rewrite (digitFree_not_numeral system _ c Hallowed Hdigit) in Hacc.
    rewrite (other_numerals_not_hanidec c Hother) in Hacc.
    discriminate.
Qed.

(** The symbol resolver empties the minus sign whenever [minValue >= 0]
    and the plus sign whenever [maxValue <= 0], for every formatter. With
    a minimum that is not negative, and a locale whose symbols are inert in
    the character class and whose plus sign and other characters are not
    the hyphen, no [-] is left in the sanitized text, and whenever
    [setValue] updates the display text the new text is that sanitized
    text, without [-]. *)
Theorem minus_sign_suppressed :
  ((0 <=? minValue props) = true -> minusSign (symbols props) = [])
  /\ ((maxValue props <=? 0) = true -> plusSign (symbols props) = [])
  /\ ((0 <=? minValue props) = true ->
      plainSymbols props = true ->
      existsb (N.eqb 45%N) (plusSign (symbols props) ++ allowedCharacters) = false ->
      forall value,
        (forall system, exists shown,
            strippedValue props system value = Some shown /\ ~ In 45%N shown)
        /\ (forall st st', setValue props value st = Some st' ->
                           inputValue st' = inputValue st
                           \/ (strippedValue props
                                 (fst (determineNumeralSystem value st)) value
                               = Some (inputValue st')
                               /\ ~ In 45%N (inputValue st')))).
Proof.
  assert (Hminus : (0 <=? minValue props) = true -> minusSign (symbols props) = []).
  { intros H. unfold symbols. cbn [minusSign]. rewrite H. reflexivity. }
  split; [exact Hminus | split].
  - intros H. unfold symbols. cbn [plusSign]. rewrite H. reflexivity.
  - intros Hmin Hplain Hlocale value.
    assert (Hstripped : forall system shown,
               strippedValue props system value = Some shown -> ~ In 45%N shown).
    { intros system shown Hshown Hin.
      destruct (strippedValue_accepted system value shown Hplain Hshown _ Hin)
        as [_ Hacc].
      unfold isAccepted, accepted in Hacc.
      rewrite (Hminus Hmin) in Hacc. cbn [app] in Hacc.
      rewrite existsb_app in Hlocale.
      apply orb_false_elim in Hlocale as [Hplus Hallowed].
      rewrite !existsb_app, Hplus, Hallowed, hyphen_not_numeral in Hacc.
      discriminate. }
    split.
    + intros system. eexists.
      split; [apply (strippedValue_plain system value Hplain)|].
      apply (Hstripped system). apply (strippedValue_plain system value Hplain).
    + intros st st' Hset.
      destruct (setValue_inputValue value st st' Hset) as [Hsame | Hshown];
        [left; exact Hsame | right].
      split; [exact Hshown | exact (Hstripped _ _ Hshown)].
Qed.

End Kept.

(** A text of two Han-decimal digits, a Latin digit and a minus sign. *)
Lemma sample_han_text_sanitized :
  determineNumeralSystem [19968; 20108; 51; 45]%N (initialState Sample.unbounded)
  = (hanidec, setCurrentNumeralSystem hanidec (initialState Sample.unbounded))
  /\ exists shown,
       strippedValue Sample.unbounded hanidec [19968; 20108; 51; 45]%N = Some shown
       /\ (forall c, In c shown ->
                     In c [19968; 20108; 51; 45]%N
                     /\ isAccepted Sample.unbounded hanidec c = true)
       /\ filter (fun c => existsb (N.eqb c) (numerals hanidec)) shown
          = filter (fun c => existsb (N.eqb c) (numerals hanidec))
                   [19968; 20108; 51; 45]%N
       /\ (forall c, In c (numerals arab ++ numerals latin) -> ~ In c shown).
Proof.
  destruct (proj2 (han_digits_select_hanidec Sample.unbounded
                     [19968; 20108; 51; 45]%N (initialState Sample.unbounded))
                  eq_refl eq_refl) as (Hdetected & _ & Hsanitized).
  split; [exact Hdetected|].
  apply Hsanitized; vm_compute; reflexivity.
Defined.

(** The input of the witness, run: the two Han-decimal digits and the
    minus sign are kept, the Latin digit is removed. *)
Example sample_han_input :
  plainSymbols Sample.unbounded = true
  /\ digitFreeSymbols Sample.unbounded = true
  /\ strippedValue Sample.unbounded hanidec [19968; 20108; 51; 45]%N
     = Some [19968; 20108; 45]%N.
Proof. repeat split; vm_compute; reflexivity. Qed.

(** The text [-5] in the range [0, 100]. *)
Lemma sample_minus_never_shown :
  (forall system, exists shown,
      strippedValue Sample.range_0_100 system (lit "-5") = Some shown
      /\ ~ In 45%N shown)
  /\ (forall st st', setValue Sample.range_0_100 (lit "-5") st = Some st' ->
                     inputValue st' = inputValue st
                     \/ (strippedValue Sample.range_0_100
                           (fst (determineNumeralSystem (lit "-5") st)) (lit "-5")
                         = Some (inputValue st')
                         /\ ~ In 45%N (inputValue st'))).
Proof.
  refine (proj2 (proj2 (minus_sign_suppressed Sample.range_0_100))
                _ _ _ (lit "-5")); vm_compute; reflexivity.
Defined.

(** The example of the claim, run: with the range [0, 100] the minus sign
    is suppressed and the typed [-] does not reach the display text. *)
Example sample_typed_minus_is_stripped :
  minusSign (symbols Sample.range_0_100) = []
  /\ strippedValue Sample.range_0_100 latin (lit "-5") = Some (lit "5")
  /\ (exists st',
         setValue Sample.range_0_100 (lit "-5") (initialState Sample.range_0_100)
         = Some st'
         /\ inputValue st' = lit "5").
Proof.
  split; [vm_compute; reflexivity|].
  split; [vm_compute; reflexivity|].
  eexists. split; vm_compute; reflexivity.
Qed.

(** * Further properties of the hook *)

(** ** Comparisons of numbers *)

Lemma isNaN_true_iff (x : float) : isNaN x = true <-> x = nan.
Proof.
  split.
  - intros H. apply Prim2SF_inj. unfold Prim2SF.
    unfold isNaN in H. rewrite H. reflexivity.
  - intros ->. reflexivity.
Qed.

Lemma Prim2SF_nan (x : float) : Prim2SF x = S754_nan <-> isNaN x = true.
Proof.
  split.
  - intros H. apply isNaN_true_iff, Prim2SF_inj. exact H.
  - intros H. apply isNaN_true_iff in H. subst x. reflexivity.
Qed.

Lemma strictEq_refl (x : float) : strictEq x x = negb (isNaN x).
Proof.
  unfold strictEq, isNaN, is_nan. destruct (x =? x); reflexivity.
Qed.

Lemma strictEq_NaN_r (x y : float) : isNaN y = true -> strictEq x y = false.
Proof.
  intros H. apply isNaN_true_iff in H. subst y.
  unfold strictEq. rewrite eqb_spec.
  change (Prim2SF nan) with S754_nan.
  unfold SFeqb. destruct (Prim2SF x); reflexivity.
Qed.

Lemma strictEq_not_NaN (x y : float) :
  strictEq x y = true -> isNaN x = false /\ isNaN y = false.
Proof.
  intros H. split.
  - destruct (isNaN x) eqn:Hx; [|reflexivity].
    apply isNaN_true_iff in Hx. subst x.
    unfold strictEq in H. rewrite eqb_spec in H.
    change (Prim2SF nan) with S754_nan in H. discriminate H.
  - destruct (isNaN y) eqn:Hy; [|reflexivity].
    rewrite (strictEq_NaN_r x y Hy) in H. discriminate.
Qed.

Lemma SFcompare_Eq_trans (a b c : spec_float) :
  SFcompare a b = Some Eq -> SFcompare b c = Some Eq -> SFcompare a c = Some Eq.
Proof.
  assert (Hfin : forall s1 s2 m1 m2 e1 e2,
             SFcompare (S754_finite s1 m1 e1) (S754_finite s2 m2 e2) = Some Eq ->
             s1 = s2 /\ m1 = m2 /\ e1 = e2).
  { intros s1 s2 m1 m2 e1 e2 H. cbn in H.
    destruct s1, s2; try discriminate;
      destruct (Z.compare_spec e1 e2) as [He | He | He]; try discriminate;
      (destruct (Pos.compare_cont Eq m1 m2) eqn:Hm; try discriminate;
       apply Pos.compare_eq in Hm; auto). }
  destruct a as [sa | sa | | sa ma ea], b as [sb | sb | | sb mb eb];
    intros Hab; try discriminate Hab;
    try (destruct sa; discriminate Hab);
    try (destruct sb; discriminate Hab).
  - destruct c as [sc | sc | | sc mc ec]; intros Hbc;
      try discriminate Hbc; try (destruct sc; discriminate Hbc); reflexivity.
  - destruct c as [sc | sc | | sc mc ec]; intros Hbc;
      try discriminate Hbc; try (destruct sb; discriminate Hbc).
    destruct sa, sb, sc; cbn in *; congruence.
  - destruct (Hfin _ _ _ _ _ _ Hab) as (-> & -> & ->).
    intros Hbc. exact Hbc.
Qed.

Lemma strictEq_trans (a b c : float) :
  strictEq a b = true -> strictEq b c = true -> strictEq a c = true.
Proof.
  unfold strictEq. rewrite !eqb_spec. unfold SFeqb.
  destruct (SFcompare (Prim2SF a) (Prim2SF b)) as [[| |]|] eqn:Hab; try discriminate.
  destruct (SFcompare (Prim2SF b) (Prim2SF c)) as [[| |]|] eqn:Hbc; try discriminate.
  rewrite (SFcompare_Eq_trans _ _ _ Hab Hbc). reflexivity.
Qed.

Lemma SFcompare_antisym (a b : spec_float) :
  SFcompare b a = option_map CompOpp (SFcompare a b).
Proof.
  destruct a as [sa | sa | | sa ma ea], b as [sb | sb | | sb mb eb];
    cbn; try reflexivity;
    try (destruct sa; reflexivity); try (destruct sb; reflexivity);
    try (destruct sa, sb; reflexivity).
  destruct sa, sb; try reflexivity;
    rewrite (Z.compare_antisym ea eb);
    destruct (Z.compare ea eb); cbn; try reflexivity;
    rewrite (Pos.compare_cont_antisym ma mb Eq); cbn;
    destruct (Pos.compare_cont Eq ma mb); reflexivity.
Qed.

(** For two numbers, [a <= b] is the negation of [b < a]. *)
Lemma leb_ltb_numbers (a b : float) :
  isNaN a = false -> isNaN b = false -> (a <=? b) = negb (b <? a).
Proof.
  intros Ha Hb. rewrite leb_spec, ltb_spec. unfold SFleb, SFltb.
  rewrite (SFcompare_antisym (Prim2SF a) (Prim2SF b)).
  destruct (SFcompare (Prim2SF a) (Prim2SF b)) as [[| |]|] eqn:Hc; try reflexivity.
  exfalso.
  destruct (Prim2SF a) eqn:Hpa, (Prim2SF b) eqn:Hpb; try discriminate Hc.
  - apply Prim2SF_nan in Hpb. congruence.
  - apply Prim2SF_nan in Hpb. congruence.
  - apply Prim2SF_nan in Hpa. congruence.
  - apply Prim2SF_nan in Hpa. congruence.
  - apply Prim2SF_nan in Hpa. congruence.
  - apply Prim2SF_nan in Hpa. congruence.
  - apply Prim2SF_nan in Hpb. congruence.
Qed.

Lemma sameValue_true_iff (a b : float) : sameValue a b = true <-> a = b.
Proof. apply Leibniz.eqb_spec. Qed.

(** ** [replaceAllButFirstOccurrence] on a sign of one code unit *)

Lemma count_cons (c x : codeUnit) (s : jsstring) :
  count c (x :: s) = ((if unit_eqb c x then 1 else 0) + count c s)%nat.
Proof. unfold count. cbn [filter]. destruct (unit_eqb c x); reflexivity. Qed.

Lemma count_app (c : codeUnit) (s t : jsstring) :
  count c (s ++ t) = (count c s + count c t)%nat.
Proof. unfold count. rewrite filter_app, length_app. reflexivity. Qed.

Lemma indexOfFrom_single (s : jsstring) (c : codeUnit) (i : Z) :
  (count c s = 0%nat /\ indexOfFrom i s [c] = (-1)%Z)
  \/ exists a b, s = a ++ c :: b /\ count c a = 0%nat
                 /\ indexOfFrom i s [c] = (i + Z.of_nat (length a))%Z.
Proof.
  revert i. induction s as [|x s IH]; intros i.
  - left. split; reflexivity.
  - cbn [indexOfFrom isPrefix]. rewrite andb_true_r, count_cons.
    unfold unit_eqb.
    destruct (N.eqb_spec c x) as [<- | Hne].
    + right. exists [], s. cbn [app length Z.of_nat].
      split; [reflexivity | split; [reflexivity | lia]].
    + destruct (IH (i + 1)%Z) as [[Hnone Hidx] | (a & b & -> & Ha & Hidx)].
      * left. split; [exact Hnone | exact Hidx].
      * right. exists (x :: a), b. rewrite count_cons.
        unfold unit_eqb. destruct (N.eqb_spec c x) as [|_]; [contradiction|].
        split; [reflexivity | split; [exact Ha|]].
        rewrite Hidx. cbn [length]. lia.
Qed.

Lemma replace_single (s : jsstring) (c : codeUnit) :
  (count c s = 0%nat /\ replace s [c] = s)
  \/ exists a b, s = a ++ c :: b /\ count c a = 0%nat /\ replace s [c] = a ++ b.
Proof.
  unfold replace, indexOf.
  destruct (indexOfFrom_single s c 0) as [[Hnone ->] | (a & b & -> & Ha & ->)].
  - left. split; [exact Hnone | reflexivity].
  - right. exists a, b. split; [reflexivity | split; [exact Ha|]].
    rewrite Z.add_0_l.
    destruct (Z.ltb_spec (Z.of_nat (length a)) 0) as [Hneg | _]; [lia|].
    rewrite Nat2Z.id. cbn [length].
    rewrite firstn_app, Nat.sub_diag, firstn_all. cbn [firstn].
    rewrite app_nil_r, skipn_app, skipn_all2 by lia.
    replace (length a + 1 - length a)%nat with 1%nat by lia. reflexivity.
Qed.

(** Of a sign of one code unit, [replaceAllButFirstOccurrence] removes
    the second occurrence and no other: a text with at most one occurrence
    is returned as it is, and any other text loses exactly its second
    occurrence, so that a sign typed [n >= 2] times is left [n - 1] times. *)
Theorem replaceAllButFirstOccurrence_removes_second (val : jsstring) (c : codeUnit) :
  ((count c val <= 1)%nat /\ replaceAllButFirstOccurrence val [c] = val
   \/ exists a b1 b2,
       val = a ++ c :: b1 ++ c :: b2
       /\ count c a = 0%nat /\ count c b1 = 0%nat
       /\ replaceAllButFirstOccurrence val [c] = a ++ c :: b1 ++ b2)
  /\ count c (replaceAllButFirstOccurrence val [c])
     = (count c val - (if (1 <? count c val)%nat then 1 else 0))%nat.
Proof.
  assert (Hself : count c [c] = 1%nat)
    by (unfold count; cbn [filter]; unfold unit_eqb; rewrite N.eqb_refl; reflexivity).
  assert (Hshape :
            (count c val <= 1)%nat /\ replaceAllButFirstOccurrence val [c] = val
            \/ exists a b1 b2,
                val = a ++ c :: b1 ++ c :: b2
                /\ count c a = 0%nat /\ count c b1 = 0%nat
                /\ replaceAllButFirstOccurrence val [c] = a ++ c :: b1 ++ b2).
  { unfold replaceAllButFirstOccurrence, indexOf.
    destruct (indexOfFrom_single val c 0) as [[Hnone ->] | (a & b & -> & Ha & ->)].
    - left. split; [lia|].
      change (-1 + 1)%Z with 0%Z.
      rewrite substring_prefix, substring_suffix by lia. cbn [Z.to_nat firstn skipn app].
      destruct (replace_single val c) as [[_ ->] | (a & b & -> & _ & _)];
        [reflexivity|].
      rewrite count_app, count_cons in Hnone. unfold unit_eqb in Hnone.
      rewrite N.eqb_refl in Hnone. lia.
    - rewrite Z.add_0_l, substring_prefix, substring_suffix by lia.
      replace (Z.to_nat (Z.of_nat (length a) + 1)) with (length a + 1)%nat by lia.
      rewrite firstn_app, firstn_all2 by lia.
      rewrite skipn_app, skipn_all2 by lia.
      replace (length a + 1 - length a)%nat with 1%nat by lia.
      cbn [firstn skipn app].
      destruct (replace_single b c) as [[Hnone ->] | (b1 & b2 & -> & Hb1 & ->)].
      + left. rewrite count_app, count_cons, Ha, Hnone. unfold unit_eqb.
        rewrite N.eqb_refl. split; [lia|]. rewrite <- app_assoc. reflexivity.
      + right. exists a, b1, b2.
        split; [reflexivity | split; [exact Ha | split; [exact Hb1|]]].
        rewrite <- app_assoc. reflexivity. }
  split; [exact Hshape|].
  destruct Hshape as [[Hfew ->] | (a & b1 & b2 & -> & Ha & Hb1 & ->)].
  - destruct (Nat.ltb_spec 1 (count c val)); lia.
  - rewrite !count_app, !count_cons, !count_app, !count_cons, Ha, Hb1.
    unfold unit_eqb. rewrite N.eqb_refl.
    destruct (Nat.ltb_spec 1 (0 + (1 + (0 + (1 + count c b2))))); lia.
Qed.

(** With the empty string for [char] (a suppressed sign), or with a
    [char] that does not occur in the text, [replaceAllButFirstOccurrence]
    returns the text as it is. *)
Theorem replaceAllButFirstOccurrence_without_occurrence (val char : jsstring) :
  char = [] \/ indexOf val char = (-1)%Z ->
  replaceAllButFirstOccurrence val char = val.
Proof.
  intros [-> | Hnone]; unfold replaceAllButFirstOccurrence.
  - assert (Hzero : forall s, indexOf s [] = 0%Z) by (destruct s; reflexivity).
    rewrite Hzero, substring_prefix, substring_suffix by lia.
    unfold replace. rewrite Hzero. cbn [Z.ltb Z.compare Z.to_nat firstn app].
    cbn [length Nat.add skipn]. apply firstn_skipn.
  - rewrite Hnone. change (-1 + 1)%Z with 0%Z.
    rewrite substring_prefix, substring_suffix by lia.
    cbn [Z.to_nat firstn skipn app]. unfold replace. rewrite Hnone. reflexivity.
Qed.

(** A text without decimal separator, and the empty sign, in the sample
    locale. *)
Lemma sample_text_without_separator :
  replaceAllButFirstOccurrence (lit "1234") (lit ".") = lit "1234".
Proof.
  apply replaceAllButFirstOccurrence_without_occurrence. right. reflexivity.
Defined.

(** ** The sanitizer only removes *)

Lemma Subsequence_refl (s : jsstring) : Subsequence s s.
Proof. induction s; constructor; assumption. Qed.

Lemma Subsequence_trans (s t u : jsstring) :
  Subsequence s t -> Subsequence t u -> Subsequence s u.
Proof.
  intros Hst Htu. revert s Hst.
  induction Htu as [| c t u _ IH | c t u _ IH]; intros s Hst.
  - exact Hst.
  - inversion Hst; subst.
    + apply subsequence_keep, IH. assumption.
    + apply subsequence_drop, IH. assumption.
  - apply subsequence_drop, IH. exact Hst.
Qed.

Lemma Subsequence_filter (keep : codeUnit -> bool) (s : jsstring) :
  Subsequence (filter keep s) s.
Proof.
  induction s as [|c s IH]; [constructor|].
  cbn [filter]. destruct (keep c); constructor; exact IH.
Qed.

Lemma Subsequence_nil (s : jsstring) : Subsequence [] s.
Proof. induction s; constructor; assumption. Qed.

Lemma Subsequence_cut (a mid b : jsstring) :
  Subsequence (a ++ b) (a ++ mid ++ b).
Proof.
  induction a as [|c a IH]; cbn [app].
  - induction mid as [|c mid IH]; cbn [app];
      [apply Subsequence_refl | apply subsequence_drop, IH].
  - apply subsequence_keep, IH.
Qed.

Lemma Subsequence_length (s t : jsstring) :
  Subsequence s t -> (length s <= length t)%nat.
Proof. induction 1; cbn [length]; lia. Qed.

Lemma Subsequence_In (s t : jsstring) (c : codeUnit) :
  Subsequence s t -> In c s -> In c t.
Proof.
  induction 1 as [| d s t _ IH | d s t _ IH]; cbn [In]; intros H; tauto.
Qed.

Lemma replaceAllButFirstOccurrence_Subsequence (val char : jsstring) :
  Subsequence (replaceAllButFirstOccurrence val char) val.
Proof.
  destruct (replaceAllButFirstOccurrence_occurrence val char)
    as [-> | (a & b & -> & ->)];
    [apply Subsequence_refl | apply Subsequence_cut].
Qed.

Section OnlyRemoves.

Context {inputValueFormatter : NumberFormatter} {numberParser : NumberParser}.
Variable props : Props.NumberFieldProps.

(** Whatever the locale, sanitizing only removes code units: the display
    text computed for an input is a subsequence of the input, the parse-ready
    text is a subsequence of the display text, and so the display text after
    [setValue] is either the previous one or a subsequence of what was typed
    (never longer, never reordered, never with a code unit that was not
    typed). *)
Theorem sanitizer_only_removes (value : jsstring) :
  (forall system shown,
      strippedValue props system value = Some shown -> Subsequence shown value)
  /\ (forall shown ready,
         parseReady props shown = Some ready -> Subsequence ready shown)
  /\ (forall st st',
         setValue props value st = Some st' ->
         inputValue st' = inputValue st
         \/ (Subsequence (inputValue st') value
             /\ (length (inputValue st') <= length value)%nat)).
Proof.
  assert (Hstripped : forall system shown,
             strippedValue props system value = Some shown ->
             Subsequence shown value).
  { intros system shown. unfold strippedValue.
    destruct (RegExp.compile _) as [re|]; [|discriminate].
    intros H. injection H as <-.
    eapply Subsequence_trans; [apply replaceAllButFirstOccurrence_Subsequence|].
    eapply Subsequence_trans; [apply replaceAllButFirstOccurrence_Subsequence|].
    eapply Subsequence_trans; [apply replaceAllButFirstOccurrence_Subsequence|].
    apply Subsequence_filter. }
  split; [exact Hstripped | split].
  - intros shown ready. unfold parseReady.
    destruct (RegExp.compile _) as [re|]; [|discriminate].
    intros H. injection H as <-. apply Subsequence_filter.
  - intros st st' Hset.
    destruct (setValue_inputValue props value st st' Hset) as [Hsame | Hshown];
      [left; exact Hsame | right].
    pose proof (Hstripped _ _ Hshown) as Hsub.
    split; [exact Hsub | exact (Subsequence_length _ _ Hsub)].
Qed.

(** ** Typing *)

Lemma setValue_frame (value : jsstring) (st st' : State) :
  setValue props value st = Some st' ->
  numberValue st' = numberValue st
  /\ lastValDispatched st' = lastValDispatched st
  /\ onChangeCalls st' = onChangeCalls st.
Proof.
  unfold setValue. intros Hset.
  pose proof (determineNumeralSystem_frame value st) as Hframe.
  destruct (determineNumeralSystem value st) as [system st1]. cbn [snd] in Hframe.
  destruct Hframe as (Hv & _ & _ & Hc & Hl).
  destruct (strippedValue props system value) as [stripped|]; [|discriminate].
  destruct (parseReady props stripped) as [ready|]; [|discriminate].
  destruct (negb _ && (_ || _)).
  - injection Hset as <-. auto.
  - injection Hset as <-. destruct (negb _ && _ && _); cbn; auto.
Qed.

Lemma setValue_shows_unparseable
      (value : jsstring) (st : State) (stripped ready : jsstring) :
  strippedValue props (fst (determineNumeralSystem value st)) value = Some stripped ->
  parseReady props stripped = Some ready ->
  isNaN (newValueOf props stripped ready) = true ->
  exists st',
    setValue props value st = Some st'
    /\ inputValue st' = stripped
    /\ tempNum st' = tempNum st.
Proof.
  intros Hstripped Hready Hnan.
  pose proof (determineNumeralSystem_frame value st) as Hframe.
  unfold setValue.
  destruct (determineNumeralSystem value st) as [system st1].
  cbn [fst] in Hstripped. cbn [snd] in Hframe.
  rewrite Hstripped, Hready, Hnan. cbn [negb andb].
  eexists. split; [reflexivity|]. split; [reflexivity|].
  cbn. apply Hframe.
Qed.

Lemma setValue_stashes
      (value : jsstring) (st : State) (stripped ready : jsstring) :
  isNaN (minValue props) = false -> isNaN (maxValue props) = false ->
  strippedValue props (fst (determineNumeralSystem value st)) value = Some stripped ->
  parseReady props stripped = Some ready ->
  isNaN (newValueOf props stripped ready) = false ->
  (newValueOf props stripped ready <=? maxValue props) = true ->
  (minValue props <=? newValueOf props stripped ready) = true ->
  exists st',
    setValue props value st = Some st'
    /\ inputValue st' = stripped
    /\ tempNum st'
       = roundValueUsingFormatter props (newValueOf props stripped ready).
Proof.
  intros Hmin Hmax Hstripped Hready Hnumber Hle Hge.
  unfold setValue.
  destruct (determineNumeralSystem value st) as [system st1].
  cbn [fst] in Hstripped.
  rewrite Hstripped, Hready, Hnumber, Hle, Hge.
  rewrite (leb_ltb_numbers _ _ Hnumber Hmax) in Hle.
  rewrite (leb_ltb_numbers _ _ Hmin Hnumber) in Hge.
  apply negb_true_iff in Hle, Hge. rewrite Hle, Hge. cbn [negb andb orb].
  eexists. split; [reflexivity|]. split; reflexivity.
Qed.

(** [setValue] never touches the numeric value and never reports a
    change: the stored number, the last value dispatched and the calls to
    [onChange] are the same before and after, so the owner of the field
    sees no difference. *)
Theorem setValue_never_commits (value : jsstring) (st st' : State) :
  setValue props value st = Some st' ->
  numberValue st' = numberValue st
  /\ lastValDispatched st' = lastValDispatched st
  /\ onChangeCalls st' = onChangeCalls st
  /\ reportView st' = reportView st.
Proof.
  intros Hset.
  destruct (setValue_frame value st st' Hset) as (Hvalue & Hlast & Hcalls).
  unfold reportView. rewrite Hvalue, Hlast, Hcalls. auto.
Qed.

(** Text that does not parse to a number ([NaN]) is put on display as
    sanitized and leaves the pending parsed value, like the stored number,
    as it was. *)
Theorem setValue_unparseable
        (value : jsstring) (st : State) (stripped ready : jsstring) :
  strippedValue props (fst (determineNumeralSystem value st)) value = Some stripped ->
  parseReady props stripped = Some ready ->
  isNaN (newValueOf props stripped ready) = true ->
  exists st',
    setValue props value st = Some st'
    /\ inputValue st' = stripped
    /\ tempNum st' = tempNum st
    /\ numberValue st' = numberValue st.
Proof.
  intros Hstripped Hready Hnan.
  destruct (setValue_shows_unparseable value st stripped ready Hstripped Hready Hnan)
    as (st' & Hset & Hinput & Hpending).
  exists st'. repeat split; try assumption.
  exact (proj1 (setValue_frame value st st' Hset)).
Qed.

(** Text that parses to a number within the bounds is put on display as
    sanitized, and the number, rounded through the formatter, becomes the
    pending parsed value; the stored number is not touched. *)
Theorem setValue_in_range
        (value : jsstring) (st : State) (stripped ready : jsstring) :
  isNaN (minValue props) = false -> isNaN (maxValue props) = false ->
  strippedValue props (fst (determineNumeralSystem value st)) value = Some stripped ->
  parseReady props stripped = Some ready ->
  isNaN (newValueOf props stripped ready) = false ->
  (newValueOf props stripped ready <=? maxValue props) = true ->
  (minValue props <=? newValueOf props stripped ready) = true ->
  exists st',
    setValue props value st = Some st'
    /\ inputValue st' = stripped
    /\ tempNum st'
       = roundValueUsingFormatter props (newValueOf props stripped ready)
    /\ numberValue st' = numberValue st.
Proof.
  intros Hmin Hmax Hstripped Hready Hnumber Hle Hge.
  destruct (setValue_stashes value st stripped ready
              Hmin Hmax Hstripped Hready Hnumber Hle Hge)
    as (st' & Hset & Hinput & Hpending).
  exists st'. repeat split; try assumption.
  exact (proj1 (setValue_frame value st st' Hset)).
Qed.

End OnlyRemoves.

(** The text [1-2], which is shown as typed and does not parse. *)
Lemma sample_unparseable_text_is_shown :
  exists st',
    setValue Sample.unbounded (lit "1-2") (initialState Sample.unbounded) = Some st'
    /\ inputValue st' = lit "1-2"
    /\ tempNum st' = tempNum (initialState Sample.unbounded)
    /\ numberValue st' = numberValue (initialState Sample.unbounded).
Proof.
  apply (setValue_unparseable Sample.unbounded (lit "1-2")
           (initialState Sample.unbounded) (lit "1-2") (lit "1-2"));
    vm_compute; reflexivity.
Defined.

(** The text [7] in the range [0, 10]. *)
Lemma sample_seven_is_stashed :
  exists st',
    setValue Sample.range_0_10 (lit "7") (initialState Sample.range_0_10) = Some st'
    /\ inputValue st' = lit "7"
    /\ tempNum st'
       = roundValueUsingFormatter Sample.range_0_10
           (newValueOf Sample.range_0_10 (lit "7") (lit "7"))
    /\ numberValue st' = numberValue (initialState Sample.range_0_10).
Proof.
  apply (setValue_in_range Sample.range_0_10 (lit "7")
           (initialState Sample.range_0_10) (lit "7") (lit "7"));
    vm_compute; reflexivity.
Defined.

Lemma sample_typing_never_commits :
  exists st',
    setValue Sample.range_0_10 (lit "7") (initialState Sample.range_0_10) = Some st'
    /\ numberValue st' = numberValue (initialState Sample.range_0_10)
    /\ lastValDispatched st' = lastValDispatched (initialState Sample.range_0_10)
    /\ onChangeCalls st' = onChangeCalls (initialState Sample.range_0_10)
    /\ reportView st' = reportView (initialState Sample.range_0_10).
Proof.
  eexists. split; [vm_compute; reflexivity|].
  apply (setValue_never_commits Sample.range_0_10 (lit "7")
           (initialState Sample.range_0_10)).
  vm_compute. reflexivity.
Defined.

(** ** Committing and stepping *)

Section Committing.

Context {inputValueFormatter : NumberFormatter} {numberParser : NumberParser}.
Variable props : Props.NumberFieldProps.

Lemma afterRender_inputValue (previous st : State) :
  inputValue (afterRender previous st)
  = if sameValue (numberValue previous) (numberValue st)
    then inputValue st
    else canonicalText (numberValue st).
Proof.
  unfold afterRender, canonicalText.
  destruct (sameValue (numberValue previous) (numberValue st)); reflexivity.
Qed.

Lemma afterRender_onChangeCalls (previous st : State) :
  onChangeCalls (afterRender previous st) = onChangeCalls st.
Proof.
  unfold afterRender. destruct (sameValue _ _); reflexivity.
Qed.

Lemma setNumberValue_nan_calls (st : State) :
  onChangeCalls (setNumberValue nan st)
  = if isNaN (lastValDispatched st) then onChangeCalls st
    else nan :: onChangeCalls st.
Proof.
  pose proof (strictEq_NaN_r (numberValue st) nan eq_refl) as Hne.
  unfold setNumberValue, strictNe. unfold strictEq in Hne.
  rewrite Hne. cbn [negb].
  change (onChangeCalls (storeNumberValue nan (smartOnChange nan st)))
    with (onChangeCalls (smartOnChange nan st)).
  rewrite smartOnChange_calls. change (isNaN nan) with true. reflexivity.
Qed.

(** [commitInputValue] on an empty display text empties the field: the
    value becomes [NaN], the display text stays empty and the pending
    parsed value is dropped; [NaN] is reported through [onChange] unless
    the last value dispatched was [NaN] already. *)
Theorem commitInputValue_empty (st : State) :
  inputValue st = [] ->
  numberValue (commitInputValue props st) = nan
  /\ inputValue (commitInputValue props st) = []
  /\ tempNum (commitInputValue props st) = nan
  /\ onChangeCalls (commitInputValue props st)
     = if isNaN (lastValDispatched st) then onChangeCalls st
       else nan :: onChangeCalls st.
Proof.
  intros Hempty. unfold commitInputValue. rewrite Hempty. cbn [length Nat.eqb].
  rewrite afterRender_numberValue, afterRender_tempNum, afterRender_inputValue.
  cbn [numberValue inputValue tempNum setInputValue].
  rewrite setNumberValue_numberValue, setNumberValue_tempNum.
  split; [reflexivity | split; [|split; [reflexivity|]]].
  - destruct (sameValue (numberValue st) nan); reflexivity.
  - rewrite afterRender_onChangeCalls. cbn [onChangeCalls setInputValue].
    rewrite setNumberValue_nan_calls. reflexivity.
Qed.

(** After [commitInputValue] the display text always agrees with the
    value. *)
Lemma commitInputValue_synchronizes (st : State) :
  inputValue (commitInputValue props st)
  = canonicalText (numberValue (commitInputValue props st)).
Proof.
  unfold commitInputValue.
  destruct (length (inputValue st) =? 0)%nat.
  - rewrite afterRender_numberValue, afterRender_inputValue.
    cbn [numberValue inputValue setInputValue].
    rewrite setNumberValue_numberValue.
    destruct (sameValue (numberValue st) nan); reflexivity.
  - destruct (negb (isNaN (tempNum st)));
      rewrite afterRender_numberValue, afterRender_inputValue;
      cbn [numberValue inputValue setInputValue];
      rewrite setNumberValue_numberValue;
      destruct (sameValue _ _); reflexivity.
Qed.

Lemma stepping_inputValue (st : State) :
  forall op, In op [increment props; decrement props;
                    incrementToMax props; decrementToMin props] ->
    inputValue (op st)
    = if sameValue (numberValue st) (numberValue (op st))
      then inputValue st
      else canonicalText (numberValue (op st)).
Proof.
  intros op Hop. cbn [In] in Hop.
  destruct Hop as [<- | [<- | [<- | [<- | []]]]].
  - unfold increment. destruct (negb (isNaN (tempNum st)));
      rewrite afterRender_numberValue, afterRender_inputValue,
        setNumberValue_numberValue, setNumberValue_inputValue; reflexivity.
  - unfold decrement. destruct (negb (isNaN (tempNum st)));
      rewrite afterRender_numberValue, afterRender_inputValue,
        setNumberValue_numberValue, setNumberValue_inputValue; reflexivity.
  - unfold incrementToMax.
    rewrite afterRender_numberValue, afterRender_inputValue,
      setNumberValue_numberValue, setNumberValue_inputValue. reflexivity.
  - unfold decrementToMin.
    rewrite afterRender_numberValue, afterRender_inputValue,
      setNumberValue_numberValue, setNumberValue_inputValue. reflexivity.
Qed.

(** The four stepping operations rewrite the display text from the new
    value exactly when the stored value changes; a step that leaves the
    value where it was (at a bound, say) leaves the display text, typed
    text included, untouched. *)
Theorem stepping_display (st : State) :
  forall op, In op [increment props; decrement props;
                    incrementToMax props; decrementToMin props] ->
    (numberValue (op st) = numberValue st -> inputValue (op st) = inputValue st)
    /\ (numberValue (op st) <> numberValue st ->
        inputValue (op st) = canonicalText (numberValue (op st))).
Proof.
  intros op Hop. rewrite (stepping_inputValue st op Hop).
  destruct (sameValue (numberValue st) (numberValue (op st))) eqn:Hsame.
  - apply sameValue_true_iff in Hsame.
    split; [reflexivity | intros Hchanged; congruence].
  - split; [|reflexivity].
    intros Hkept. symmetry in Hkept. apply sameValue_true_iff in Hkept. congruence.
Qed.

Lemma setNumberValue_onChangeCalls (v : float) (st : State) :
  onChangeCalls (setNumberValue v st) = onChangeCalls st
  \/ onChangeCalls (setNumberValue v st) = v :: onChangeCalls st.
Proof.
  unfold setNumberValue. destruct (strictNe (numberValue st) v); [|left; reflexivity].
  change (onChangeCalls (storeNumberValue v (smartOnChange v st)))
    with (onChangeCalls (smartOnChange v st)).
  rewrite smartOnChange_calls.
  destruct (isNaN v && isNaN (lastValDispatched st)); [left | right]; reflexivity.
Qed.

(** Each of the five committing operations calls [onChange] at most
    once, and then with the value it stores. *)
Theorem operations_report_the_stored_value (st : State) :
  forall op, In op [increment props; decrement props; incrementToMax props;
                    decrementToMin props; commitInputValue props] ->
    onChangeCalls (op st) = onChangeCalls st
    \/ onChangeCalls (op st) = numberValue (op st) :: onChangeCalls st.
Proof.
  assert (Hstore : forall previous v st0,
             onChangeCalls (afterRender previous (setNumberValue v st0))
             = onChangeCalls st0
             \/ onChangeCalls (afterRender previous (setNumberValue v st0))
                = numberValue (afterRender previous (setNumberValue v st0))
                    :: onChangeCalls st0).
  { intros previous v st0.
    rewrite afterRender_onChangeCalls, afterRender_numberValue,
      setNumberValue_numberValue.
    apply setNumberValue_onChangeCalls. }
  intros op Hop. cbn [In] in Hop.
  destruct Hop as [<- | [<- | [<- | [<- | [<- | []]]]]].
  - unfold increment. destruct (negb (isNaN (tempNum st)));
      [exact (Hstore st _ (setTempNum nan st)) | apply Hstore].
  - unfold decrement. destruct (negb (isNaN (tempNum st)));
      [exact (Hstore st _ (setTempNum nan st)) | apply Hstore].
  - apply Hstore.
  - apply Hstore.
  - unfold commitInputValue.
    destruct (length (inputValue st) =? 0)%nat.
    + rewrite afterRender_onChangeCalls, afterRender_numberValue.
      cbn [onChangeCalls numberValue setInputValue].
      rewrite setNumberValue_numberValue.
      apply (setNumberValue_onChangeCalls nan (setTempNum nan st)).
    + destruct (negb (isNaN (tempNum st)));
        rewrite afterRender_onChangeCalls, afterRender_numberValue;
        cbn [onChangeCalls numberValue setInputValue];
        rewrite setNumberValue_numberValue.
      * apply (setNumberValue_onChangeCalls _ (setTempNum nan st)).
      * apply setNumberValue_onChangeCalls.
Qed.

End Committing.

(** The field whose display text has been erased, at its maximum 10. *)
Lemma sample_commit_of_erased_text :
  numberValue (commitInputValue Sample.range_0_10_at_max
                 (setInputValue [] (initialState Sample.range_0_10_at_max))) = nan
  /\ inputValue (commitInputValue Sample.range_0_10_at_max
                   (setInputValue [] (initialState Sample.range_0_10_at_max))) = []
  /\ tempNum (commitInputValue Sample.range_0_10_at_max
                (setInputValue [] (initialState Sample.range_0_10_at_max))) = nan
  /\ onChangeCalls (commitInputValue Sample.range_0_10_at_max
                      (setInputValue [] (initialState Sample.range_0_10_at_max)))
     = [nan].
Proof.
  apply (commitInputValue_empty Sample.range_0_10_at_max
           (setInputValue [] (initialState Sample.range_0_10_at_max))).
  reflexivity.
Defined.

(** ** Typing, then committing *)

Section TypeThenCommit.

Context {inputValueFormatter : NumberFormatter} {numberParser : NumberParser}.
Variable props : Props.NumberFieldProps.

(** Typing a number within the bounds and committing stores that number,
    rounded through the formatter and clamped, shows its formatted form
    and leaves nothing pending. (When the rounding itself fails to read
    the number back, the value committed before is clamped instead.) *)
Theorem type_in_range_then_commit
        (value : jsstring) (st : State) (stripped ready : jsstring) :
  isNaN (minValue props) = false -> isNaN (maxValue props) = false ->
  strippedValue props (fst (determineNumeralSystem value st)) value = Some stripped ->
  parseReady props stripped = Some ready ->
  isNaN (newValueOf props stripped ready) = false ->
  (newValueOf props stripped ready <=? maxValue props) = true ->
  (minValue props <=? newValueOf props stripped ready) = true ->
  stripped <> [] ->
  exists typed,
    setValue props value st = Some typed
    /\ let rounded := roundValueUsingFormatter props (newValueOf props stripped ready) in
       let committed := clamp (if isNaN rounded then numberValue st else rounded)
                              (minValue props) (maxValue props) (step props) in
       numberValue (commitInputValue props typed) = committed
       /\ inputValue (commitInputValue props typed) = canonicalText committed
       /\ isNaN (tempNum (commitInputValue props typed)) = true.
Proof.
  intros Hmin Hmax Hstripped Hready Hnumber Hle Hge Hshown.
  destruct (setValue_stashes props value st stripped ready
              Hmin Hmax Hstripped Hready Hnumber Hle Hge)
    as (typed & Hset & Hinput & Hpending).
  exists typed. split; [exact Hset|]. cbv zeta.
  destruct (setValue_frame props value st typed Hset) as (Hvalue & _).
  rewrite commitInputValue_synchronizes, commitInputValue_tempNum,
    commitInputValue_numberValue, Hinput, Hpending, Hvalue.
  destruct stripped as [|c stripped]; [contradiction|]. cbn [length Nat.eqb negb andb].
  destruct (isNaN (roundValueUsingFormatter props (newValueOf props (c :: stripped) ready)))
    eqn:Hrounded; cbn [negb]; auto.
Qed.

(** Typing text that is shown but does not parse, and committing, brings
    the field back to a committed state: the pending value if one was
    stashed earlier, else the value stored before, is clamped, stored and
    shown in its formatted form. *)
Theorem type_unparseable_then_commit
        (value : jsstring) (st : State) (stripped ready : jsstring) :
  strippedValue props (fst (determineNumeralSystem value st)) value = Some stripped ->
  parseReady props stripped = Some ready ->
  isNaN (newValueOf props stripped ready) = true ->
  stripped <> [] ->
  exists typed,
    setValue props value st = Some typed
    /\ let committed := clamp (if isNaN (tempNum st) then numberValue st else tempNum st)
                              (minValue props) (maxValue props) (step props) in
       numberValue (commitInputValue props typed) = committed
       /\ inputValue (commitInputValue props typed) = canonicalText committed
       /\ isNaN (tempNum (commitInputValue props typed)) = true.
Proof.
  intros Hstripped Hready Hnan Hshown.
  destruct (setValue_shows_unparseable props value st stripped ready Hstripped Hready Hnan)
    as (typed & Hset & Hinput & Hpending).
  exists typed. split; [exact Hset|]. cbv zeta.
  destruct (setValue_frame props value st typed Hset) as (Hvalue & _).
  rewrite commitInputValue_synchronizes, commitInputValue_tempNum,
    commitInputValue_numberValue, Hinput, Hpending, Hvalue.
  destruct stripped as [|c stripped]; [contradiction|]. cbn [length Nat.eqb negb andb].
  destruct (isNaN (tempNum st)) eqn:Hold; cbn [negb]; auto.
Qed.

End TypeThenCommit.

(** Typing [7], and typing [1-2] (which does not parse), into the field
    at 10 with the range [0, 10]. *)
Lemma sample_type_7_then_commit :
  exists typed,
    setValue Sample.range_0_10_at_max (lit "7")
      (initialState Sample.range_0_10_at_max) = Some typed
    /\ numberValue (commitInputValue Sample.range_0_10_at_max typed) = 7
    /\ inputValue (commitInputValue Sample.range_0_10_at_max typed) = lit "7".
Proof.
  destruct (type_in_range_then_commit Sample.range_0_10_at_max (lit "7")
              (initialState Sample.range_0_10_at_max) (lit "7") (lit "7"))
    as (typed & Hset & Hvalue & Hinput & _);
    [vm_compute; reflexivity | vm_compute; reflexivity | vm_compute; reflexivity
    | vm_compute; reflexivity | vm_compute; reflexivity | vm_compute; reflexivity
    | vm_compute; reflexivity | discriminate |].
  exists typed. split; [exact Hset|]. cbv zeta in *.
  rewrite Hvalue, Hinput. split; vm_compute; reflexivity.
Defined.

Lemma sample_type_garbage_then_commit :
  exists typed,
    setValue (Sample.props None None None (Some 10)) (lit "1-2")
      (initialState (Sample.props None None None (Some 10))) = Some typed
    /\ numberValue (commitInputValue (Sample.props None None None (Some 10)) typed) = 10
    /\ inputValue (commitInputValue (Sample.props None None None (Some 10)) typed)
       = lit "10".
Proof.
  destruct (type_unparseable_then_commit (Sample.props None None None (Some 10))
              (lit "1-2") (initialState (Sample.props None None None (Some 10)))
              (lit "1-2") (lit "1-2"))
    as (typed & Hset & Hvalue & Hinput & _);
    [vm_compute; reflexivity | vm_compute; reflexivity | vm_compute; reflexivity
    | discriminate |].
  exists typed. split; [exact Hset|]. cbv zeta in *.
  rewrite Hvalue, Hinput. split; vm_compute; reflexivity.
Defined.

(** ** What the owner of the field is told *)

Lemma sameNumber_refl (x : float) : sameNumber x x = true.
Proof.
  unfold sameNumber. rewrite strictEq_refl.
  destruct (isNaN x); reflexivity.
Qed.

Lemma sameNumber_NaN_l (x y : float) :
  isNaN x = true -> sameNumber x y = isNaN y.
Proof.
  intros Hx. unfold sameNumber. rewrite Hx. cbn [andb].
  destruct (isNaN y) eqn:Hy; [reflexivity|]. cbn [orb].
  destruct (strictEq x y) eqn:Heq; [|reflexivity].
  apply strictEq_not_NaN in Heq. destruct Heq. congruence.
Qed.

Lemma sameNumber_strictEq_trans (a b c : float) :
  sameNumber a b = true -> strictEq b c = true -> sameNumber a c = true.
Proof.
  intros Hab Hbc. unfold sameNumber in *.
  destruct (strictEq_not_NaN b c Hbc) as [Hb Hc].
  rewrite Hb, andb_false_r in Hab. cbn [orb] in Hab.
  rewrite (strictEq_trans a b c Hab Hbc). apply orb_true_r.
Qed.

Lemma sameNumber_trans (a b c : float) :
  sameNumber a b = true -> sameNumber b c = true -> sameNumber a c = true.
Proof.
  intros Hab Hbc.
  destruct (isNaN b) eqn:Hb.
  - rewrite (sameNumber_NaN_l b c Hb) in Hbc.
    unfold sameNumber in Hab. rewrite Hb, andb_true_r in Hab.
    apply orb_true_iff in Hab as [Ha | Heq].
    + rewrite (sameNumber_NaN_l a c Ha). exact Hbc.
    + apply strictEq_not_NaN in Heq. destruct Heq. congruence.
  - unfold sameNumber in Hbc. rewrite Hb in Hbc. cbn [andb orb] in Hbc.
    exact (sameNumber_strictEq_trans a b c Hab Hbc).
Qed.

Lemma strictEq_sym (a b : float) : strictEq a b = strictEq b a.
Proof.
  unfold strictEq. rewrite !eqb_spec. unfold SFeqb.
  rewrite (SFcompare_antisym (Prim2SF a) (Prim2SF b)).
  destruct (SFcompare (Prim2SF a) (Prim2SF b)) as [[| |]|]; reflexivity.
Qed.

Lemma sameNumber_sym (a b : float) : sameNumber a b = sameNumber b a.
Proof.
  unfold sameNumber. rewrite (strictEq_sym a b), (andb_comm (isNaN a)).
  reflexivity.
Qed.

Lemma hd_error_app_one (l : list float) (v : float) :
  hd_error (l ++ [v]) = match l with [] => Some v | x :: _ => Some x end.
Proof. destruct l; reflexivity. Qed.

Section Reports.

Context {inputValueFormatter : NumberFormatter} {numberParser : NumberParser}.
Variable props : Props.NumberFieldProps.

Lemma afterRender_reportView (previous st : State) :
  reportView (afterRender previous st) = reportView st.
Proof. unfold afterRender. destruct (sameValue _ _); reflexivity. Qed.

Lemma setNumberValue_reportView (v : float) (s t : State) :
  reportView s = reportView t ->
  reportView (setNumberValue v s) = reportView (setNumberValue v t).
Proof.
  unfold reportView. intros H. injection H as Hn Hl Hc.
  unfold setNumberValue, smartOnChange. rewrite Hn, Hl.
  destruct (strictNe (numberValue t) v); cbn; [|congruence].
  destruct (negb (isNaN v) || negb (isNaN (lastValDispatched t))); cbn; congruence.
Qed.

(** Seen from the owner, every committing operation is one call of the
    setter of the number. *)
Lemma operation_reportView (st : State) :
  forall op, In op [increment props; decrement props; incrementToMax props;
                    decrementToMin props; commitInputValue props] ->
    exists v, reportView (op st) = reportView (setNumberValue v st).
Proof.
  intros op Hop. cbn [In] in Hop.
  destruct Hop as [<- | [<- | [<- | [<- | [<- | []]]]]].
  - unfold increment. destruct (negb (isNaN (tempNum st)));
      eexists; rewrite afterRender_reportView;
      apply setNumberValue_reportView; reflexivity.
  - unfold decrement. destruct (negb (isNaN (tempNum st)));
      eexists; rewrite afterRender_reportView;
      apply setNumberValue_reportView; reflexivity.
  - eexists. apply afterRender_reportView.
  - eexists. apply afterRender_reportView.
  - unfold commitInputValue. destruct (length (inputValue st) =? 0)%nat.
    + exists nan. rewrite afterRender_reportView.
      change (reportView (setInputValue [] (setNumberValue nan (setTempNum nan st))))
        with (reportView (setNumberValue nan (setTempNum nan st))).
      apply setNumberValue_reportView. reflexivity.
    + destruct (negb (isNaN (tempNum st))); eexists;
        rewrite afterRender_reportView;
        match goal with
        | |- reportView (setInputValue ?x ?s) = _ =>
            change (reportView (setInputValue x s)) with (reportView s)
        end;
        apply setNumberValue_reportView; reflexivity.
Qed.

(** A property of what the owner sees holds in every reachable state as
    soon as it holds after the first render and is kept by the setter of
    the number. *)
Lemma reachable_report_induction (P : State -> Prop) :
  (forall s t, reportView s = reportView t -> P s -> P t) ->
  P (initialState props) ->
  (forall v s, P s -> P (setNumberValue v s)) ->
  forall st, Reachable props st -> P st.
Proof.
  intros Hview Hinit Hset st Hreach.
  assert (Hop : forall s op,
             In op [increment props; decrement props; incrementToMax props;
                    decrementToMin props; commitInputValue props] ->
             P s -> P (op s)).
  { intros s op Hin Hs.
    destruct (operation_reportView s op Hin) as [v Hv].
    apply (Hview (setNumberValue v s)); [symmetry; exact Hv | apply Hset, Hs]. }
  induction Hreach as [| st value st' _ IH Hsv | st _ IH | st _ IH | st _ IH
                       | st _ IH | st _ IH ].
  - exact Hinit.
  - apply (Hview st); [|exact IH]. unfold reportView.
    destruct (setValue_frame props value st st' Hsv) as (-> & -> & ->).
    reflexivity.
  - apply (Hop st (increment props)); [cbn; tauto | exact IH].
  - apply (Hop st (decrement props)); [cbn; tauto | exact IH].
  - apply (Hop st (incrementToMax props)); [cbn; tauto | exact IH].
  - apply (Hop st (decrementToMin props)); [cbn; tauto | exact IH].
  - apply (Hop st (commitInputValue props)); [cbn; tauto | exact IH].
Qed.


(** In every state the field can reach, the stored number is the one its
    owner was told last: it [===] the latest value passed to [onChange]
    (the starting value when [onChange] was never called), or both are
    [NaN]. No operation changes the value behind the owner's back. *)
Theorem stored_value_is_the_reported_one (st : State) :
  Reachable props st ->
  sameNumber (numberValue st)
             (lastReported (startingValue props) (onChangeCalls st)) = true.
Proof.
  intros Hreach.
  assert (Hinv : sameNumber (lastValDispatched st) (numberValue st) = true
                 /\ sameNumber (lastValDispatched st)
                      (lastReported (startingValue props) (onChangeCalls st)) = true).
  { revert st Hreach. apply reachable_report_induction.
    - intros s t Hview. unfold reportView in Hview.
      injection Hview as -> -> ->. auto.
    - unfold initialState. cbn [numberValue lastValDispatched onChangeCalls lastReported].
      split; [|apply sameNumber_refl].
      unfold startingValue, isNaNOpt. destruct (defaultValue props) as [d|];
        [|reflexivity].
      destruct (isNaN d); [reflexivity | apply sameNumber_refl].
    - intros v s [Hvalue Hlog]. unfold setNumberValue.
      destruct (strictNe (numberValue s) v) eqn:Hne.
      + cbn [numberValue lastValDispatched onChangeCalls storeNumberValue].
        rewrite smartOnChange_calls, smartOnChange_last.
        split; [apply sameNumber_refl|].
        destruct (isNaN v && isNaN (lastValDispatched s)) eqn:Hboth;
          [|apply sameNumber_refl].
        apply andb_prop in Hboth as [Hv Hprev].
        rewrite (sameNumber_NaN_l _ _ Hprev) in Hlog.
        rewrite (sameNumber_NaN_l _ _ Hv). exact Hlog.
      + cbn [numberValue lastValDispatched onChangeCalls storeNumberValue].
        split; [|exact Hlog].
        unfold strictNe in Hne. apply negb_false_iff in Hne.
        exact (sameNumber_strictEq_trans _ _ _ Hvalue Hne). }
  destruct Hinv as [Hvalue Hlog].
  rewrite sameNumber_sym in Hvalue.
  exact (sameNumber_trans _ _ _ Hvalue Hlog).
Qed.

(** A field that starts empty never reports [NaN] first: in every state
    it can reach, the earliest call to [onChange], if there is one, carried
    a number (and as long as there is none, the last value dispatched is
    still [NaN]). *)
Theorem first_report_is_a_number (st : State) :
  isNaN (startingValue props) = true ->
  Reachable props st ->
  match oldestCall (onChangeCalls st) with
  | Some first => isNaN first = false
  | None => isNaN (lastValDispatched st) = true
  end.
Proof.
  intros Hstart. revert st. apply reachable_report_induction.
  - intros s t Hview. unfold reportView in Hview.
    injection Hview as _ -> ->. auto.
  - exact Hstart.
  - intros v s Hs. unfold setNumberValue.
    destruct (strictNe (numberValue s) v); [|exact Hs].
    cbn [lastValDispatched onChangeCalls storeNumberValue].
    rewrite smartOnChange_calls, smartOnChange_last.
    destruct (isNaN v) eqn:Hv; cbn [andb].
    + destruct (isNaN (lastValDispatched s)) eqn:Hprev.
      * destruct (oldestCall (onChangeCalls s)); [exact Hs | reflexivity].
      * unfold oldestCall in *. cbn [rev]. rewrite hd_error_app_one.
        destruct (rev (onChangeCalls s)) as [|x l]; [|exact Hs].
        cbn [hd_error] in Hs. congruence.
    + unfold oldestCall in *. cbn [rev]. rewrite hd_error_app_one.
      destruct (rev (onChangeCalls s)) as [|x l]; [exact Hv | exact Hs].
Qed.

End Reports.

(** The empty field, stepped up twice: the value 2 is the latest entry
    of the log [2; 1]. *)
Lemma sample_reported_value :
  sameNumber
    (numberValue
       (increment Sample.range_0_10
          (increment Sample.range_0_10 (initialState Sample.range_0_10))))
    (lastReported (startingValue Sample.range_0_10)
       (onChangeCalls
          (increment Sample.range_0_10
             (increment Sample.range_0_10 (initialState Sample.range_0_10)))))
  = true.
Proof.
  apply (stored_value_is_the_reported_one Sample.range_0_10).
  apply reach_increment, reach_increment, reach_initial.
Defined.

Example sample_reported_value_log :
  onChangeCalls
    (increment Sample.range_0_10
       (increment Sample.range_0_10 (initialState Sample.range_0_10)))
  = [2; 1].
Proof. vm_compute. reflexivity. Qed.

(** The empty field, stepped up once. *)
Lemma sample_first_report :
  match oldestCall
          (onChangeCalls (increment Sample.range_0_10 (initialState Sample.range_0_10)))
  with
  | Some first => isNaN first = false
  | None =>
      isNaN (lastValDispatched
               (increment Sample.range_0_10 (initialState Sample.range_0_10))) = true
  end.
Proof.
  apply (first_report_is_a_number Sample.range_0_10);
    [reflexivity | apply reach_increment, reach_initial].
Defined.

(** ** Digits of the detected system *)

Lemma numerals_disjoint (system other : numeralSystem) (c : codeUnit) :
  system <> other -> In c (numerals other) ->
  existsb (N.eqb c) (numerals system) = false.
Proof.
  intros Hne Hin.
  destruct system, other; try contradiction; cbn in Hin;
    repeat (destruct Hin as [<- | Hin]; [reflexivity|]); contradiction.
Qed.

Section DetectedDigits.

Context {inputValueFormatter : NumberFormatter} {numberParser : NumberParser}.
Variable props : Props.NumberFieldProps.

(** For every input (and a locale whose symbols are inert in the
    character class and contain no digit glyph), the display text keeps
    all the digits of the system the detector answers, in their order, and
    none of the digits of the two other systems. In particular one
    Arabic-Indic digit anywhere in the input removes every Latin and
    Han-decimal digit from it. *)
Theorem digits_of_other_systems_are_removed (value : jsstring) (st : State) :
  plainSymbols props = true -> digitFreeSymbols props = true ->
  let system := fst (determineNumeralSystem value st) in
  exists shown,
    strippedValue props system value = Some shown
    /\ filter (fun c => existsb (N.eqb c) (numerals system)) shown
       = filter (fun c => existsb (N.eqb c) (numerals system)) value
    /\ (forall other c, other <> system -> In c (numerals other) -> ~ In c shown)
    /\ (hasNumeral (numerals arab) value = true ->
        system = arab
        /\ forall c, In c (numerals latin ++ numerals hanidec) -> ~ In c shown).
Proof.
  intros Hplain Hfree system.
  eexists. split; [apply (strippedValue_plain props system value Hplain)|].
  set (shown := replaceAllButFirstOccurrence _ _).
  assert (Hshown : strippedValue props system value = Some shown)
    by apply (strippedValue_plain props system value Hplain).
  assert (Hothers : forall other c,
             other <> system -> In c (numerals other) -> ~ In c shown).
  { intros other c Hne Hdigit Hin.
    destruct (strippedValue_accepted props system value shown Hplain Hshown c Hin)
      as [_ Hacc].
    unfold isAccepted, accepted in Hacc. rewrite !existsb_app in Hacc.
    pose proof Hfree as Hfree'. unfold digitFreeSymbols in Hfree'.
    apply andb_prop in Hfree' as [Hfree' Hallowed].
    apply andb_prop in Hfree' as [Hfree' _].
    apply andb_prop in Hfree' as [Hminus Hplus].
    rewrite (digitFree_not_numeral other _ c Hminus Hdigit) in Hacc.
    rewrite (digitFree_not_numeral other _ c Hplus Hdigit) in Hacc.
    rewrite (digitFree_not_numeral other _ c Hallowed Hdigit) in Hacc.
    rewrite (numerals_disjoint system other c (not_eq_sym Hne) Hdigit) in Hacc.
    discriminate. }
  split; [exact (strippedValue_keeps_numerals props system value shown
                   Hplain Hfree Hshown)|].
  split; [exact Hothers|].
  intros Harab.
  assert (Hsystem : system = arab).
  { unfold system. rewrite determineNumeralSystem_order, Harab. reflexivity. }
  split; [exact Hsystem|].
  intros c Hc. apply in_app_or in Hc as [Hc | Hc].
  - apply (Hothers latin c); [rewrite Hsystem; discriminate | exact Hc].
  - apply (Hothers hanidec c); [rewrite Hsystem; discriminate | exact Hc].
Qed.

(** ** The parse-ready text *)

Lemma fold_left_literals (parts : list part) (acc : jsstring) :
  fold_left (fun chars p =>
               match type p with
               | Decimal | Fraction | Integer | MinusSign | PlusSign => chars
               | _ => chars ++ backslash :: value p
               end) parts acc
  = acc ++ concat (map (cons backslash) (map value (filter inLiterals parts))).
Proof.
  unfold concat. revert acc.
  induction parts as [|p parts IH]; intros acc.
  - cbn. rewrite app_nil_r. reflexivity.
  - cbn [fold_left filter]. rewrite IH. unfold inLiterals at 2.
    destruct (type p); cbn [map List.concat];
      rewrite <- ?app_assoc; reflexivity.
Qed.

Lemma literals_backslashed :
  literals (symbols props) = concat (map (cons backslash) literalValues).
Proof.
  unfold symbols, literalValues. cbn [literals].
  rewrite fold_left_literals. reflexivity.
Qed.

Lemma literalValues_plain :
  forallb plainValue allowedValues = true ->
  forallb plainValue literalValues = true.
Proof.
  unfold allowedValues, literalValues.
  induction (formatToParts (-1000.1)) as [|p parts IH]; [reflexivity|].
  cbn [filter]. unfold inValidCharacters at 1, inLiterals at 1.
  destruct (type p); cbn [map forallb]; intros H;
    try (apply andb_prop in H as [Hp H]; rewrite ?Hp); auto.
Qed.

(** A code unit allowed on display either is removed for parsing or
    belongs to a decimal separator part. *)
Lemma allowed_literal_or_decimal (c : codeUnit) :
  existsb (N.eqb c) allowedCharacters
  = existsb (N.eqb c) (concat literalValues)
    || existsb (N.eqb c) (concat decimalValues).
Proof.
  unfold allowedCharacters, allowedValues, literalValues, decimalValues, concat.
  induction (formatToParts (-1000.1)) as [|p parts IH]; [reflexivity|].
  cbn [filter]. unfold inValidCharacters at 1, inLiterals at 1, isDecimalPart at 1.
  destruct (type p); cbn [map List.concat]; rewrite ?existsb_app, ?IH;
    try reflexivity;
    repeat match goal with
           | |- context [existsb ?f ?l] => destruct (existsb f l)
           end; reflexivity.
Qed.

Lemma compile_literals :
  plainSymbols props = true ->
  RegExp.compile (literals (symbols props))
  = Some {| RegExp.negated := false;
            RegExp.items := map RegExp.ISingle (concat literalValues) |}.
Proof.
  unfold plainSymbols. intros H. apply andb_prop in H as [_ Hvalues].
  apply literalValues_plain in Hvalues.
  pose proof (tokenize_allowed literalValues Hvalues) as Htokens.
  rewrite literals_backslashed. unfold RegExp.compile.
  destruct literalValues as [|v vs] eqn:Hvs.
  - reflexivity.
  - change (concat (map (cons backslash) (v :: vs)))
      with (backslash :: v ++ concat (map (cons backslash) vs)) in *.
    change (match RegExp.tokenize 0
                    (backslash :: v ++ concat (map (cons backslash) vs)) with
            | Some ts =>
                option_map (RegExp.Build_charClass false) (RegExp.classRanges ts)
            | None => None
            end
            = Some {| RegExp.negated := false;
                      RegExp.items := map RegExp.ISingle (concat (v :: vs)) |}).
    rewrite Htokens, classRanges_chars. reflexivity.
Qed.

(** For a locale whose symbols are inert in the character class, the text
    handed to the parser consists of digits of the detected system, the
    resolved signs and code units of the decimal separator only: everything
    else the locale lets on display (grouping, currency, unit, literal
    text) has been taken out. *)
Theorem parseReady_content (system : numeralSystem) (value shown : jsstring) :
  plainSymbols props = true ->
  strippedValue props system value = Some shown ->
  exists ready,
    parseReady props shown = Some ready
    /\ ready = filter (fun c => negb (existsb (N.eqb c) (concat literalValues))) shown
    /\ forall c, In c ready ->
                 In c (numerals system)
                 \/ In c (minusSign (symbols props))
                 \/ In c (plusSign (symbols props))
                 \/ In c (concat decimalValues).
Proof.
  intros Hplain Hshown. unfold parseReady.
  rewrite (compile_literals Hplain). cbn [option_map].
  eexists. split; [reflexivity|].
  assert (Hfilter : RegExp.removeAll
                      {| RegExp.negated := false;
                         RegExp.items := map RegExp.ISingle (concat literalValues) |}
                      shown
                    = filter (fun c => negb (existsb (N.eqb c) (concat literalValues)))
                             shown).
  { unfold RegExp.removeAll, RegExp.test. cbn [RegExp.negated RegExp.items].
    apply filter_ext. intros c. rewrite existsb_singles. reflexivity. }
  split; [exact Hfilter|].
  rewrite Hfilter. intros c Hc. apply filter_In in Hc as [Hin Hnot].
  apply negb_true_iff in Hnot.
  destruct (strippedValue_accepted props system value shown Hplain Hshown c Hin)
    as [_ Hacc].
  unfold isAccepted, accepted in Hacc.
  rewrite !existsb_app, allowed_literal_or_decimal, Hnot in Hacc. cbn [orb] in Hacc.
  assert (Hmem : forall l, existsb (N.eqb c) l = true -> In c l).
  { intros l H. apply existsb_exists in H as (d & Hd & Heq).
    apply N.eqb_eq in Heq. subst d. exact Hd. }
  apply orb_true_iff in Hacc as [H | Hacc]; [right; left; exact (Hmem _ H)|].
  apply orb_true_iff in Hacc as [H | Hacc]; [right; right; left; exact (Hmem _ H)|].
  apply orb_true_iff in Hacc as [H | H]; [left | right; right; right]; exact (Hmem _ H).
Qed.

End DetectedDigits.

(** An Arabic-Indic digit, a Latin digit and a Han-decimal digit. *)
Lemma sample_mixed_scripts :
  exists shown,
    strippedValue Sample.unbounded arab [1633; 50; 19977]%N = Some shown
    /\ filter (fun c => existsb (N.eqb c) (numerals arab)) shown = [1633%N]
    /\ forall c, In c (numerals latin ++ numerals hanidec) -> ~ In c shown.
Proof.
  destruct (digits_of_other_systems_are_removed Sample.unbounded
              [1633; 50; 19977]%N (initialState Sample.unbounded))
    as (shown & Hshown & Hkept & _ & Harab);
    [vm_compute; reflexivity | vm_compute; reflexivity |].
  exists shown. split; [exact Hshown | split; [exact Hkept|]].
  apply Harab. reflexivity.
Defined.

(** The text [1,234.5]. *)
Lemma sample_parse_ready_text :
  exists ready,
    parseReady Sample.unbounded (lit "1,234.5") = Some ready
    /\ ready = filter (fun c => negb (existsb (N.eqb c) (concat literalValues)))
                      (lit "1,234.5")
    /\ forall c, In c ready ->
                 In c (numerals latin)
                 \/ In c (minusSign (symbols Sample.unbounded))
                 \/ In c (plusSign (symbols Sample.unbounded))
                 \/ In c (concat decimalValues).
Proof.
  apply (parseReady_content Sample.unbounded latin (lit "1,234.5") (lit "1,234.5"));
    vm_compute; reflexivity.
Defined.

Example sample_parse_ready_run :
  parseReady Sample.unbounded (lit "1,234.5") = Some (lit "1234.5").
Proof. vm_compute. reflexivity. Qed.

(** The text [-12a,3.4-5x]. *)
Lemma sample_sanitized_is_subsequence :
  Subsequence (lit "-12,3.45") (lit "-12a,3.4-5x").
Proof.
  apply (proj1 (sanitizer_only_removes Sample.unbounded (lit "-12a,3.4-5x")) latin).
  vm_compute. reflexivity.
Defined.

(** ** A committed field stays committed *)

Section Committed.

Context {inputValueFormatter : NumberFormatter} {numberParser : NumberParser}.
Variable props : Props.NumberFieldProps.

(** A field is in step when its display text is the one that goes with
    its value. The field is in step after the first render and after every
    [commitInputValue], and the four stepping operations keep it in step:
    only typing can take the display text away from the value. *)
Theorem committed_field_stays_in_step :
  inputValue (initialState props) = canonicalText (numberValue (initialState props))
  /\ (forall st,
         inputValue (commitInputValue props st)
         = canonicalText (numberValue (commitInputValue props st)))
  /\ (forall st op,
         In op [increment props; decrement props;
                incrementToMax props; decrementToMin props] ->
         inputValue st = canonicalText (numberValue st) ->
         inputValue (op st) = canonicalText (numberValue (op st))).
Proof.
  split; [reflexivity | split; [apply commitInputValue_synchronizes|]].
  intros st op Hop Hstep.
  rewrite (stepping_inputValue props st op Hop).
  destruct (sameValue (numberValue st) (numberValue (op st))) eqn:Hsame;
    [|reflexivity].
  apply sameValue_true_iff in Hsame. rewrite <- Hsame. exact Hstep.
Qed.

End Committed.

(** The field at 10 (its maximum), stepped up. *)
Lemma sample_step_at_the_maximum :
  inputValue (increment Sample.range_0_10_at_max (initialState Sample.range_0_10_at_max))
  = canonicalText
      (numberValue (increment Sample.range_0_10_at_max
                      (initialState Sample.range_0_10_at_max))).
Proof.
  apply (proj2 (proj2 (committed_field_stays_in_step Sample.range_0_10_at_max))).
  - left. reflexivity.
  - vm_compute. reflexivity.
Defined.

(** The text [9] typed into the field at its maximum 10 and stepped up:
    the value stays at 10 and the typed text stays on display. *)
Lemma sample_step_keeps_typed_text :
  exists typed,
    setValue Sample.range_0_10_at_max (lit "9")
      (initialState Sample.range_0_10_at_max) = Some typed
    /\ numberValue (increment Sample.range_0_10_at_max typed) = 10
    /\ inputValue (increment Sample.range_0_10_at_max typed) = lit "9".
Proof.
  eexists. split; [vm_compute; reflexivity|].
  split; [vm_compute; reflexivity|].
  rewrite (proj1 (stepping_display Sample.range_0_10_at_max _
                    (increment Sample.range_0_10_at_max) (or_introl eq_refl)));
    vm_compute; reflexivity.
Defined.

(** The field at 10, emptied by a commit of erased text. *)
Lemma sample_commit_reports_once :
  onChangeCalls (commitInputValue Sample.range_0_10_at_max
                   (setInputValue [] (initialState Sample.range_0_10_at_max)))
  = onChangeCalls (setInputValue [] (initialState Sample.range_0_10_at_max))
  \/ onChangeCalls (commitInputValue Sample.range_0_10_at_max
                      (setInputValue [] (initialState Sample.range_0_10_at_max)))
     = numberValue (commitInputValue Sample.range_0_10_at_max
                      (setInputValue [] (initialState Sample.range_0_10_at_max)))
         :: onChangeCalls (setInputValue [] (initialState Sample.range_0_10_at_max)).
Proof.
  apply (operations_report_the_stored_value Sample.range_0_10_at_max).
  cbn [In]. tauto.
Defined.

(** ** Decimal grids *)

Lemma stepsExactly_below (point : nat -> float) (step : float) (n k : nat) :
  forallb (stepsExactly point step) (seq 0 n) = true ->
  (k < n)%nat ->
  handleDecimalOperation Plus (point k) step = point (S k)
  /\ handleDecimalOperation Minus (point (S k)) step = point k.
Proof.
  intros Hall Hk.
  assert (Hone : stepsExactly point step k = true).
  { apply (proj1 (forallb_forall _ _) Hall). apply in_seq. lia. }
  unfold stepsExactly in Hone. apply andb_prop in Hone as [Hup Hdown].
  split; apply sameValue_true_iff; assumption.
Qed.

(** On the grid of tenths from 0 to 100 and on the grid of hundredths
    from 0 to 10, decimal-safe addition of the step lands exactly on the
    next grid point (the float nearest to the decimal) and subtraction
    lands exactly back: stepping up and down such a grid never drifts. *)
Theorem decimal_grids_do_not_drift (k : nat) :
  (k < 1000)%nat ->
  (handleDecimalOperation Plus (tenth k) 0.1 = tenth (S k)
   /\ handleDecimalOperation Minus (tenth (S k)) 0.1 = tenth k)
  /\ (handleDecimalOperation Plus (hundredth k) 0.01 = hundredth (S k)
      /\ handleDecimalOperation Minus (hundredth (S k)) 0.01 = hundredth k).
Proof.
  intros Hk. split.
  - apply (stepsExactly_below tenth 0.1 1000 k); [vm_compute; reflexivity | exact Hk].
  - apply (stepsExactly_below hundredth 0.01 1000 k);
      [vm_compute; reflexivity | exact Hk].
Qed.

(** Two tenths plus one tenth, where plain float addition gives
    0.30000000000000004. *)
Lemma sample_three_tenths :
  handleDecimalOperation Plus (tenth 2) 0.1 = tenth 3
  /\ tenth 3 = 0.3
  /\ tenth 2 + 0.1 <> tenth 3.
Proof.
  split; [apply (decimal_grids_do_not_drift 2); lia|].
  split; [vm_compute; reflexivity | float_discriminate].
Defined.

(** ** Locale texts that act on the character class *)

Section DanishCurrency.

#[local] Existing Instance Danish.formatter.
#[local] Existing Instance Danish.parser.

(** C6, at an input where the code lets the typed minus sign through:
    with the range [0, 100] and the Danish currency format showing the
    code [DKK], the symbol resolver does empty the minus sign, but the
    currency code is pasted into the character class behind one backslash,
    where [\D] stands for every code unit that is not a digit. The class
    then accepts [-], and the text [-5] is put on display as [-5]. *)
Lemma danish_currency_shows_typed_minus :
  (0 <=? minValue Sample.range_0_100) = true
  /\ minusSign (symbols Sample.range_0_100) = []
  /\ validCharacters (symbols Sample.range_0_100)
     = lit "\.\," ++ [92; 160]%N ++ lit "\DKK"
  /\ option_map (fun re => RegExp.removeAll re (lit "-"))
                (RegExp.compile (94%N :: lit "0123456789\D"))
     = Some (lit "-")
  /\ strippedValue Sample.range_0_100 latin (lit "-5") = Some (lit "-5")
  /\ exists st',
       setValue Sample.range_0_100 (lit "-5") (initialState Sample.range_0_100)
       = Some st'
       /\ inputValue st' = lit "-5"
       /\ count 45%N (inputValue st') = 1%nat.
Proof.
  repeat (split; [vm_compute; reflexivity|]).
  eexists. split; [vm_compute; reflexivity|].
  split; vm_compute; reflexivity.
Qed.

End DanishCurrency.

Section DaysUnit.

#[local] Existing Instance Days.formatter.

(** C7, at an input where the code keeps a digit of another system: with
    the English unit format writing out [days], the unit is pasted into
    the character class behind one backslash, where [\d] stands for the
    Latin digits. For the text made of the Han-decimal digit for one and
    the Latin digit [3] the detector answers and stores [hanidec], as it
    should, but the class then accepts the Latin digit, which stays on
    display. *)
Lemma days_unit_keeps_latin_digit :
  determineNumeralSystem [19968; 51]%N (initialState Sample.unbounded)
  = (hanidec, setCurrentNumeralSystem hanidec (initialState Sample.unbounded))
  /\ validCharacters (symbols Sample.unbounded) = lit "\,\.\ \days"
  /\ In 51%N (numerals latin)
  /\ strippedValue Sample.unbounded hanidec [19968; 51]%N = Some [19968; 51]%N
  /\ exists st',
       setValue Sample.unbounded [19968; 51]%N (initialState Sample.unbounded)
       = Some st'
       /\ currentNumeralSystem st' = hanidec
       /\ inputValue st' = [19968; 51]%N.
Proof.
  split; [vm_compute; reflexivity|].
  split; [vm_compute; reflexivity|].
  split; [cbn; tauto|].
  split; [vm_compute; reflexivity|].
  eexists. split; [vm_compute; reflexivity|].
  split; vm_compute; reflexivity.
Qed.

End DaysUnit.
